(** * GFS invoice parser and product catalog: a shallow embedding

    The development follows [scripts/invoice_parser.py] and
    [scripts/db_manager.py].  Python values are modelled as follows.

    - [str] is [string]; the alphabet is the 7-bit one, so the character
      classes [\d], [\s] and [[A-Z]] are the ASCII ones and a code point
      outside ASCII belongs to none of them.
    - [int] is [Z] (unbounded, as in Python).
    - The [float] obtained from a token of shape digits '.' two digits is
      modelled by the decimal it denotes, counted in hundredths ([N]);
      the rounding of [float()] to binary64 is not modelled.
    - A call that can raise returns a [result]; [try]/[except] is a match
      on it. *)

From Stdlib Require Import String Ascii List ZArith NArith Bool Arith Lia.
Import ListNotations.
Local Open Scope string_scope.
Local Open Scope list_scope.
Local Open Scope nat_scope.

(** ** Exceptions *)

Inductive exn : Type :=
| ValueError
| IndexError.

Definition result (A : Type) : Type := (exn + A)%type.

Definition ok {A : Type} (a : A) : result A := inr a.
Definition raise {A : Type} (e : exn) : result A := inl e.

Definition bind {A B : Type} (m : result A) (k : A -> result B) : result B :=
  match m with
  | inl e => inl e
  | inr a => k a
  end.

Notation "x <- m ;; k" := (bind m (fun x => k))
  (at level 61, m at next level, right associativity).

(** ** The Python builtins the two scripts use *)

Module Py.

(** [str.isspace] on one character: TAB..CR, FS..US and the space. *)
Definition isspace (c : ascii) : bool :=
  let n := nat_of_ascii c in
  (((9 <=? n) && (n <=? 13)) || ((28 <=? n) && (n <=? 32)))%nat.

(** [\d] *)
Definition isdigit (c : ascii) : bool :=
  let n := nat_of_ascii c in ((48 <=? n) && (n <=? 57))%nat.

(** [[A-Z]] *)
Definition isupper (c : ascii) : bool :=
  let n := nat_of_ascii c in ((65 <=? n) && (n <=? 90))%nat.

Definition digit_value (c : ascii) : N := (N_of_ascii c - 48)%N.

Fixpoint lstrip (s : string) : string :=
  match s with
  | EmptyString => EmptyString
  | String c s' => if isspace c then lstrip s' else s
  end.

Fixpoint rstrip (s : string) : string :=
  match s with
  | EmptyString => EmptyString
  | String c s' =>
      match rstrip s' with
      | EmptyString => if isspace c then EmptyString else String c EmptyString
      | r => String c r
      end
  end.

(** [s.strip()] *)
Definition strip (s : string) : string := rstrip (lstrip s).

(** [s.split()]: the maximal runs of non-whitespace characters, in order.
    [cur] is the token being read. *)
Fixpoint split_from (cur : string) (s : string) : list string :=
  match s with
  | EmptyString => match cur with EmptyString => [] | _ => [cur] end
  | String c s' =>
      if isspace c then
        match cur with
        | EmptyString => split_from EmptyString s'
        | _ => cur :: split_from EmptyString s'
        end
      else split_from (cur ++ String c EmptyString)%string s'
  end.

Definition split (s : string) : list string := split_from EmptyString s.

(** [sep.join(l)] *)
Definition join (sep : string) (l : list string) : string := String.concat sep l.

(** [needle in hay] for strings *)
Fixpoint contains (needle hay : string) : bool :=
  String.prefix needle hay ||
  match hay with
  | EmptyString => false
  | String _ hay' => contains needle hay'
  end.

(** [x in l] for a list, a set or the keys of a dict of strings *)
Definition mem (x : string) (l : list string) : bool :=
  existsb (String.eqb x) l.

(** [l[i]], a negative [i] counting from the end *)
Definition getitem {A : Type} (l : list A) (i : Z) : result A :=
  let n := Z.of_nat (length l) in
  let j := if (i <? 0)%Z then (i + n)%Z else i in
  if (j <? 0)%Z then raise IndexError
  else match nth_error l (Z.to_nat j) with
       | Some a => ok a
       | None => raise IndexError
       end.

(** [l[lo:hi]] for [0 <= lo] and [0 <= hi] *)
Definition slice {A : Type} (l : list A) (lo hi : nat) : list A :=
  skipn lo (firstn hi l).

(** [l[lo:]] and [l[:hi]] *)
Definition slice_from {A : Type} (l : list A) (lo : nat) : list A := skipn lo l.
Definition slice_to {A : Type} (l : list A) (hi : nat) : list A := firstn hi l.

(** [range(start, stop, -1)] *)
Definition range_down (start stop : Z) : list Z :=
  map (fun k => (start - Z.of_nat k)%Z) (seq 0 (Z.to_nat (start - stop))).

(** [range(start, stop)] over naturals *)
Definition range (start stop : nat) : list nat := seq start (stop - start).

(** [enumerate(l)] *)
Definition enumerate {A : Type} (l : list A) : list (nat * A) :=
  combine (seq 0 (length l)) l.

(** [l.index(x)] for a list of strings *)
Fixpoint index (l : list string) (x : string) : result nat :=
  match l with
  | [] => raise ValueError
  | y :: l' => if String.eqb y x then ok 0 else (i <- index l' x ;; ok (S i))
  end.

(** Value of a run of decimal digits, most significant first. *)
Fixpoint digits_value (acc : N) (s : string) : N :=
  match s with
  | EmptyString => acc
  | String c s' => digits_value (10 * acc + digit_value c)%N s'
  end.

(** Digits of an [int()] literal after the sign: digits, with single
    underscores allowed between two digits.  [prev] tells that the
    previous character was a digit. *)
Fixpoint int_digits (acc : N) (prev : bool) (s : string) : option N :=
  match s with
  | EmptyString => if prev then Some acc else None
  | String c s' =>
      if isdigit c then int_digits (10 * acc + digit_value c)%N true s'
      else if Ascii.eqb c "_" && prev then int_digits acc false s'
      else None
  end.

(** [int(s)]; the interpreter's limit on the number of digits is taken
    as unset. *)
Definition int (s : string) : result Z :=
  let t := strip s in
  let (neg, body) :=
    match t with
    | String "+" r => (false, r)
    | String "-" r => (true, r)
    | _ => (false, t)
    end in
  match int_digits 0 false body with
  | Some n => ok (if neg then (- Z.of_N n)%Z else Z.of_N n)
  | None => raise ValueError
  end.

(** The anchor [$] matches at the end of the string and before a final
    line feed: the part of [s] that a pattern [^...$] has to cover. *)
Fixpoint chomp (s : string) : string :=
  match s with
  | EmptyString => EmptyString
  | String c s' =>
      match s' with
      | EmptyString => if Ascii.eqb c "010" then EmptyString else s
      | _ => String c (chomp s')
      end
  end.

(** Longest prefix of digits, and what follows it. *)
Fixpoint span_digits (s : string) : string * string :=
  match s with
  | EmptyString => (EmptyString, EmptyString)
  | String c s' =>
      if isdigit c then
        let (d, r) := span_digits s' in (String c d, r)
      else (EmptyString, s)
  end.

End Py.

(** ** invoice_parser.py *)

Module InvoiceParser.

(** Hundredths of the currency unit. *)
Definition price : Type := N.

Definition CATEGORY_MAP : list (string * string) :=
  [ ("PR", "Produce");
    ("GR", "Grocery");
    ("FR", "Frozen");
    ("DY", "Dairy");
    ("BV", "Beverage");
    ("CN", "Canned");
    ("PA", "Paper");
    ("CH", "Chemical/Cleaning");
    ("EQ", "Equipment");
    ("PU", "Packaging/Supply") ].

Definition KNOWN_BRANDS : list string :=
  [ "Markon"; "Ready-"; "Stacy'"; "Annie'"; "Nutri-"; "Betty"; "Zee Ze"; "Cool C";
    "Kellog"; "Corn P"; "Ruffle"; "Pepper"; "Marzet"; "Horizo"; "Gordon";
    "Packer"; "Tru Fru"; "Amafru"; "Ken's"; "G.S."; "Zee Ze" ].

(** [token in CATEGORY_MAP] *)
Definition is_category (token : string) : bool :=
  Py.mem token (map fst CATEGORY_MAP).

(** [CATEGORY_MAP.get(key, default)] *)
Fixpoint dict_get (d : list (string * string)) (key default : string) : string :=
  match d with
  | [] => default
  | (k, v) :: d' => if String.eqb k key then v else dict_get d' key default
  end.

(** [re.match(r'^\d+\.\d{2}$', p)] followed by [float(p)]: the value of
    a price-shaped token, [None] when the pattern does not match. *)
Definition price_token (p : string) : option price :=
  match Py.span_digits (Py.chomp p) with
  | (String c ip, String "." (String a (String b EmptyString))) =>
      if Py.isdigit a && Py.isdigit b
      then Some (100 * Py.digits_value 0 (String c ip)
                 + 10 * Py.digit_value a + Py.digit_value b)%N
      else None
  | _ => None
  end.

Definition price_shaped (p : string) : bool :=
  match price_token p with Some _ => true | None => false end.

(** [re.match(r'^\d{6}$', token)] *)
Definition is_item_code (token : string) : bool :=
  let t := Py.chomp token in
  (String.length t =? 6)%nat && forallb Py.isdigit (list_ascii_of_string t).

(** The loop of [extract_price_fields] over [reversed(parts)]; [prices]
    is the list built so far.  The [elif prices: break] leaves the loop
    only when a price has already been collected. *)
Fixpoint scan_prices (rev_parts : list string) (prices : list price) : list price :=
  match rev_parts with
  | [] => prices
  | p :: rest =>
      match price_token p with
      | Some v => scan_prices rest (v :: prices)
      | None =>
          match prices with
          | [] => scan_prices rest prices
          | _ :: _ => prices
          end
      end
  end.

(** The list [prices] when the loop is left. *)
Definition recovered_prices (parts : list string) : list price :=
  scan_prices (rev parts) [].

Definition extract_price_fields (parts : list string) : result (price * price * price) :=
  let prices := recovered_prices parts in
  if (3 <=? length prices)%nat then
    a <- Py.getitem prices (-3) ;;
    b <- Py.getitem prices (-2) ;;
    c <- Py.getitem prices (-1) ;;
    ok (a, b, c)
  else if (2 <=? length prices)%nat then
    b <- Py.getitem prices (-2) ;;
    c <- Py.getitem prices (-1) ;;
    ok (0%N, b, c)
  else if (1 <=? length prices)%nat then
    c <- Py.getitem prices (-1) ;;
    ok (0%N, c, c)
  else ok (0%N, 0%N, 0%N).

Record LineItem : Type := {
  item_code : string;
  quantity_ordered : Z;
  quantity_shipped : Z;
  unit : string;
  pack_size : string;
  brand : string;
  description : string;
  category_code : string;
  category_name : string;
  invoice_value : price;
  unit_price : price;
  extended_price : price;
  raw_line : string
}.

(** The loop at lines 69-73 over the indices [idxs]: the first index
    whose token is a key of [CATEGORY_MAP], with that token. *)
Fixpoint scan_category (parts : list string) (idxs : list Z)
  : result (option (string * Z)) :=
  match idxs with
  | [] => ok None
  | i :: rest =>
      if (0 <=? i)%Z then
        p <- Py.getitem parts i ;;
        if is_category p then ok (Some (p, i)) else scan_category parts rest
      else scan_category parts rest
  end.

(** [for i in range(len(parts) - 4, max(4, len(parts) - 10), -1)] *)
Definition category_window (parts : list string) : list Z :=
  let n := Z.of_nat (length parts) in
  Py.range_down (n - 4) (Z.max 4 (n - 10)).

Definition locate_category (parts : list string) : result (option (string * Z)) :=
  scan_category parts (category_window parts).

(** ['x' in part or part in ['EA', 'LB', 'OZ', 'FOZ', 'CO', 'CS']] *)
Definition is_pack_token (part : string) : bool :=
  Py.contains "x" part || Py.mem part ["EA"; "LB"; "OZ"; "FOZ"; "CO"; "CS"].

(** The loop at lines 99-102. *)
Definition pack_end_of (middle_parts : list string) : nat :=
  fold_left
    (fun pack_end ip => if is_pack_token (snd ip) then fst ip + 1 else pack_end)
    (Py.enumerate middle_parts) 0.

(** [remaining[0] in KNOWN_BRANDS or len(remaining[0]) < 8] *)
Definition looks_like_brand (token : string) : bool :=
  Py.mem token KNOWN_BRANDS || (String.length token <? 8)%nat.

(** Lines 93-114: [(pack_size, brand, description)] from [middle_parts].
    The two guards [if middle_parts:] and [if remaining:] are the
    matches on the lists. *)
Definition segment_fields (middle_parts : list string) : string * string * string :=
  match middle_parts with
  | [] => ("", "", "")
  | _ :: _ =>
      let pack_end := pack_end_of middle_parts in
      let pack_size := Py.join " " (Py.slice_to middle_parts pack_end) in
      let remaining := Py.slice_from middle_parts pack_end in
      match remaining with
      | [] => (pack_size, "", "")
      | first :: _ =>
          if looks_like_brand first
          then (pack_size, first, Py.join " " (Py.slice_from remaining 1))
          else (pack_size, "", Py.join " " remaining)
      end
  end.

(** The [try] block at lines 79-81. *)
Definition quantities (parts : list string) : result (Z * Z) :=
  p1 <- Py.getitem parts 1 ;;
  qty_ordered <- Py.int p1 ;;
  p2 <- Py.getitem parts 2 ;;
  qty_shipped <- Py.int p2 ;;
  ok (qty_ordered, qty_shipped).

Definition parse_line_item (line : string) : result (option LineItem) :=
  let parts := Py.split (Py.strip line) in
  if (length parts <? 8)%nat then ok None else
  p0 <- Py.getitem parts 0 ;;
  if negb (is_item_code p0) then ok None else
  let item_code := p0 in
  prices <- extract_price_fields parts ;;
  let '(inv_val, unit_price, extended) := prices in
  found <- locate_category parts ;;
  match found with
  | None => ok None
  | Some (category, category_idx) =>
      if String.eqb category "" then ok None else
      match quantities parts with
      | inl ValueError => ok None
      | inl e => raise e
      | inr (qty_ordered, qty_shipped) =>
          unit <- (if (3 <? length parts)%nat then Py.getitem parts 3 else ok "CS") ;;
          let middle_parts := Py.slice parts 4 (Z.to_nat category_idx) in
          let '(pack_size, brand, description) := segment_fields middle_parts in
          ok (Some {|
            item_code := item_code;
            quantity_ordered := qty_ordered;
            quantity_shipped := qty_shipped;
            unit := unit;
            pack_size := pack_size;
            brand := brand;
            description := description;
            category_code := category;
            category_name := dict_get CATEGORY_MAP category category;
            invoice_value := inv_val;
            unit_price := unit_price;
            extended_price := extended;
            raw_line := Py.strip line
          |})
      end
  end.

(** *** Ship-to location (lines 158-165 of [parse_invoice]) *)

Definition LOCATION_SUFFIXES : list string := ["SCHOOL"; "ELEMENTARY"; "CENTER"].

(** [[A-Z\s]] *)
Definition upper_or_space (c : ascii) : bool := Py.isupper c || Py.isspace c.

(** Number of leading characters of [s] in [[A-Z\s]]: what the greedy
    [[A-Z\s]+] takes first. *)
Fixpoint class_run (s : string) : nat :=
  match s with
  | EmptyString => 0
  | String c s' => if upper_or_space c then S (class_run s') else 0
  end.

(** The alternation [(?:SCHOOL|ELEMENTARY|CENTER)] at the start of [s]:
    the first alternative that is a prefix. *)
Fixpoint match_suffix (alts : list string) (s : string) : option string :=
  match alts with
  | [] => None
  | w :: alts' => if String.prefix w s then Some w else match_suffix alts' s
  end.

(** Backtracking of [[A-Z\s]+] over [rest]: it holds [t] characters,
    the alternation is tried after them, and on failure one character is
    given back; it never holds fewer than one. *)
Fixpoint backtrack (rest : string) (t : nat) : option string :=
  match t with
  | 0 => None
  | S t' =>
      match match_suffix LOCATION_SUFFIXES
              (String.substring t (String.length rest - t) rest) with
      | Some w => Some (String.substring 0 t rest ++ w)%string
      | None => backtrack rest t'
      end
  end.

(** The pattern [([A-Z][A-Z\s]+(?:SCHOOL|ELEMENTARY|CENTER))] anchored
    at the start of [s]: the text of group 1. *)
Definition match_location_at (s : string) : option string :=
  match s with
  | EmptyString => None
  | String c rest =>
      if Py.isupper c then
        match backtrack rest (class_run rest) with
        | Some m => Some (String c m)
        | None => None
        end
      else None
  end.

(** [re.search] of that pattern in [s]: the leftmost start that matches. *)
Fixpoint search_location (s : string) : option string :=
  match match_location_at s with
  | Some m => Some m
  | None =>
      match s with
      | EmptyString => None
      | String _ s' => search_location s'
      end
  end.

(** The inner loop [for j in range(idx, min(idx+5, len(lines)))]. *)
Fixpoint look_ahead (lines : list string) (js : list nat) : result (option string) :=
  match js with
  | [] => ok None
  | j :: js' =>
      l <- Py.getitem lines (Z.of_nat j) ;;
      match search_location l with
      | Some m => ok (Some (Py.strip m))
      | None => look_ahead lines js'
      end
  end.

(** One iteration of [for line in lines] as far as the key ['location']
    of [invoice_info] goes; [location] is its value before, [None] for
    an absent key. *)
Definition ship_to_step (lines : list string) (location : option string) (line : string)
  : result (option string) :=
  if Py.contains "Ship To:" line then
    idx <- Py.index lines line ;;
    found <- look_ahead lines (Py.range idx (Nat.min (idx + 5) (length lines))) ;;
    match found with
    | Some loc => ok (Some loc)
    | None => ok location
    end
  else ok location.

Fixpoint ship_to_loop (lines : list string) (location : option string) (todo : list string)
  : result (option string) :=
  match todo with
  | [] => ok location
  | line :: todo' =>
      location' <- ship_to_step lines location line ;;
      ship_to_loop lines location' todo'
  end.

(** [invoice_info.get('location')] after the first page, whose text split
    at line feeds is [lines]. *)
Definition extract_location (lines : list string) : result (option string) :=
  ship_to_loop lines None lines.

(** *** The batch loop ([batch_process_invoices]) *)

(** [invoice_info]: an absent key is [None]. *)
Record InvoiceInfo : Type := {
  number : option string;
  date : option string;
  location : option string
}.

(** Truth value of the dict [invoice_info]: it has a key. *)
Definition info_nonempty (info : InvoiceInfo) : bool :=
  match number info, date info, location info with
  | None, None, None => false
  | _, _, _ => true
  end.

(** What [parse_invoice] returns. *)
Record Invoice : Type := {
  invoice_info : InvoiceInfo;
  items : list LineItem
}.

(** What the function calls and does not define: [DatabaseManager(db_path)]
    opens the catalog file and runs the schema on it, the [glob] lists
    the directory, [parse_invoice] reads a file through pdfplumber, the
    methods of [DatabaseManager] run SQL on the catalog file.  Each but
    the listing either raises ([inl]) or returns; a method that raises
    leaves the catalog as it was, its transaction not being committed. *)
Class Collaborators : Type := {
  directory : Type;
  catalog_path : Type;
  pdf_path : Type;
  path_name : pdf_path -> string;
  database : Type;
  failure : Type;
  open_catalog : catalog_path -> failure + database;
  list_invoices : directory -> list pdf_path;
  parse_invoice : pdf_path -> failure + Invoice;
  add_invoice : database -> InvoiceInfo -> failure + (database * Z);
  upsert_product : database -> LineItem -> failure + (database * Z);
  add_invoice_item : database -> Z -> Z -> LineItem -> failure + database;
  get_products_by_category : database -> failure + list (string * nat)
}.

Section Batch.

Context {C : Collaborators}.

(** The lines the function prints, one constructor per [print]
    statement (the three lines about the invoice are one). *)
Inductive output : Type :=
| Found (n : nat)
| Processing (name : string)
| InvoiceLines (number date location : option string)
| ItemsFound (n : nat)
| ItemError (item_code : string) (e : failure)
| FileError (e : failure)
| Complete
| Summary (stats : list (string * nat)).

(** The loop [for item in result['items']] with its [try]. *)
Fixpoint store_items (db : database) (invoice_id : Z) (todo : list LineItem)
  : database * list output :=
  match todo with
  | [] => (db, [])
  | item :: todo' =>
      match upsert_product db item with
      | inl e =>
          let (db', out) := store_items db invoice_id todo' in
          (db', ItemError (item_code item) e :: out)
      | inr (db1, product_id) =>
          match add_invoice_item db1 invoice_id product_id item with
          | inl e =>
              let (db', out) := store_items db1 invoice_id todo' in
              (db', ItemError (item_code item) e :: out)
          | inr db2 => store_items db2 invoice_id todo'
          end
      end
  end.

(** What is printed between [Processing] and the call of [add_invoice]. *)
Definition report_lines (result : Invoice) : list output :=
  let info := invoice_info result in
  (if info_nonempty info
   then [InvoiceLines (number info) (date info) (location info)]
   else [])
  ++ [ItemsFound (length (items result))].

(** One iteration of [for pdf_path in invoice_files]: the catalog after
    it and the lines it prints. *)
Definition process_file (db : database) (pdf : pdf_path) : database * list output :=
  match parse_invoice pdf with
  | inl e => (db, [Processing (path_name pdf); FileError e])
  | inr result =>
      match add_invoice db (invoice_info result) with
      | inl e =>
          (db, Processing (path_name pdf) :: report_lines result ++ [FileError e])
      | inr (db1, invoice_id) =>
          let (db2, errors) := store_items db1 invoice_id (items result) in
          (db2, Processing (path_name pdf) :: report_lines result ++ errors)
      end
  end.

(** The whole loop: the catalog after it and, per file and in order,
    the lines printed for it. *)
Fixpoint process_files (db : database) (files : list pdf_path)
  : database * list (list output) :=
  match files with
  | [] => (db, [])
  | pdf :: files' =>
      let (db1, entry) := process_file db pdf in
      let (db2, entries) := process_files db1 files' in
      (db2, entry :: entries)
  end.

(** An entry records a failed file when it has the line of the outer
    [except]. *)
Definition is_file_error (o : output) : bool :=
  match o with FileError _ => true | _ => false end.

Definition entry_failed (entry : list output) : bool := existsb is_file_error entry.

Record run : Type := {
  final_db : database;
  printed : list output;
  raised : option failure
}.

(** The body of [batch_process_invoices] from [print(f"Found ...")] on,
    with the opened catalog and the sorted list of files.  The summary
    query after the loop is outside every [try]. *)
Definition batch_loop (invoice_files : list pdf_path) (db : database) : run :=
  let (db', entries) := process_files db invoice_files in
  let out := Found (length invoice_files) :: concat entries ++ [Complete] in
  match get_products_by_category db' with
  | inl e => {| final_db := db'; printed := out; raised := Some e |}
  | inr stats => {| final_db := db'; printed := out ++ [Summary stats]; raised := None |}
  end.

(** [batch_process_invoices(invoice_dir, db_path)].  The catalog is
    opened first, outside every [try]: when that raises ([inl]) nothing
    has been listed, printed or stored.  Otherwise the directory is
    listed and the rest runs ([inr]). *)
Definition batch_process_invoices (invoice_dir : directory) (db_path : catalog_path)
  : failure + run :=
  match open_catalog db_path with
  | inl e => inl e
  | inr db => inr (batch_loop (list_invoices invoice_dir) db)
  end.

End Batch.

End InvoiceParser.

(** ** db_manager.py: the product catalog *)

Module DbManager.

Import InvoiceParser.

(** One entry of the JSON list in the column [price_history]. *)
Record price_point : Type := {
  point_date : string;
  point_price : price
}.

(** Modelled from the spec: the declaration of the table [gfs_products]
    (schema.sql) is missing.  A row has the columns that the statements
    of [upsert_product] name; item codes compare as text; [price_history]
    holds the list its JSON text decodes to, the empty list for NULL or
    the empty text; a new row gets the next larger [id]. *)
Record product : Type := {
  id : Z;
  gfs_item_code : string;
  description : string;
  brand : string;
  pack_size : string;
  category_code : string;
  category_name : string;
  unit_price : price;
  price_history : list price_point;
  first_seen : string;
  last_seen : string;
  order_count : Z
}.

Definition table : Type := list product.

(** [SELECT ... WHERE gfs_item_code = ?] with [fetchone()] *)
Definition select_by_code (conn : table) (code : string) : option product :=
  find (fun row => String.eqb (gfs_item_code row) code) conn.

(** [cursor.lastrowid] of an insertion *)
Definition next_rowid (conn : table) : Z :=
  (fold_left Z.max (map id conn) 0 + 1)%Z.

(** [not price_history or price_history[-1]['price'] != unit_price] *)
Definition price_differs (history : list price_point) (p : price) : bool :=
  match last (map Some history) None with
  | None => true
  | Some point => negb (N.eqb (point_price point) p)
  end.

(** [UPDATE gfs_products SET unit_price, price_history, last_seen,
    order_count WHERE id = ?] *)
Definition update_row (p : price) (history : list price_point) (today : string)
    (count : Z) (product_id : Z) (row : product) : product :=
  if Z.eqb (id row) product_id then
    {| id := id row;
       gfs_item_code := gfs_item_code row;
       description := description row;
       brand := brand row;
       pack_size := pack_size row;
       category_code := category_code row;
       category_name := category_name row;
       unit_price := p;
       price_history := history;
       first_seen := first_seen row;
       last_seen := today;
       order_count := count |}
  else row.

(** [upsert_product]; [today] is [date.today().isoformat()] at the call. *)
Definition upsert_product (today : string) (conn : table) (item_data : LineItem)
  : table * Z :=
  match select_by_code conn (item_code item_data) with
  | Some existing =>
      let product_id := id existing in
      let history := price_history existing in
      let count := (order_count existing + 1)%Z in
      let history' :=
        if price_differs history (InvoiceParser.unit_price item_data)
        then history ++ [ {| point_date := today;
                             point_price := InvoiceParser.unit_price item_data |} ]
        else history in
      (map (update_row (InvoiceParser.unit_price item_data) history' today count product_id)
           conn,
       product_id)
  | None =>
      let product_id := next_rowid conn in
      (conn ++
       [ {| id := product_id;
            gfs_item_code := item_code item_data;
            description := InvoiceParser.description item_data;
            brand := InvoiceParser.brand item_data;
            pack_size := InvoiceParser.pack_size item_data;
            category_code := InvoiceParser.category_code item_data;
            category_name := InvoiceParser.category_name item_data;
            unit_price := InvoiceParser.unit_price item_data;
            price_history := [ {| point_date := today;
                                  point_price := InvoiceParser.unit_price item_data |} ];
            first_seen := today;
            last_seen := today;
            order_count := 1 |} ],
       product_id)
  end.

(** [get_product_by_code] *)
Definition get_product_by_code (conn : table) (code : string) : option product :=
  select_by_code conn code.

End DbManager.

Import InvoiceParser.

(** * Vocabulary of the specification

    The notions the properties below are stated with. *)

(** The Line Classifier: the two tests at lines 54-59. *)
Definition classifier_accepts (parts : list string) : bool :=
  (8 <=? length parts) &&
  match parts with
  | [] => false
  | first :: _ => is_item_code first
  end.

(** Tokens hold no whitespace, so [$] can only match at their end. *)
Definition spaceless (t : string) : Prop :=
  Forall (fun c => Py.isspace c = false) (list_ascii_of_string t).

(** Exactly six ASCII digits. *)
Definition six_digits (t : string) : Prop :=
  String.length t = 6 /\
  Forall (fun c => Py.isdigit c = true) (list_ascii_of_string t).

(** The prices of a list of tokens, when each of them is price-shaped. *)
Definition prices_of (run : list string) (values : list price) : Prop :=
  map price_token run = map Some values.

(** A key of the Category Registry. *)
Definition registry_key (token : string) : Prop :=
  exists name, In (token, name) CATEGORY_MAP.

(** The window as the claim words it: the same scan, counted from the
    end of the tokens that precede the recovered prices. *)
Definition category_window_before_prices (parts : list string) : list Z :=
  let n := (Z.of_nat (length parts) - Z.of_nat (length (recovered_prices parts)))%Z in
  Py.range_down (n - 4) (Z.max 4 (n - 10)).

(** A token that belongs to the pack size: it contains a lowercase x or
    is one of the unit words. *)
Definition pack_like (t : string) : Prop :=
  (exists a b, t = (a ++ String "x" b)%string) \/
  In t ["EA"; "LB"; "OZ"; "FOZ"; "CO"; "CS"].

(** [b] is the index just after the last pack-like token of [middle],
    0 when there is none. *)
Definition pack_boundary (middle : list string) (b : nat) : Prop :=
  Forall (fun t => ~ pack_like t) (skipn b middle) /\
  (b = 0 \/ exists i t, b = S i /\ nth_error middle i = Some t /\ pack_like t).

(** A member of the Brand Recognizer set. *)
Definition known_brand (t : string) : Prop := In t KNOWN_BRANDS.

(** The match in the first line of [window] that has one. *)
Fixpoint first_match (window : list string) : option string :=
  match window with
  | [] => None
  | l :: window' =>
      match search_location l with
      | Some m => Some (Py.strip m)
      | None => first_match window'
      end
  end.

(** The location as the claim words it, for the anchor line at index
    [idx]: the first match in the next up to 5 lines after that line. *)
Definition location_after_anchor (lines : list string) (idx : nat) : option string :=
  first_match (firstn 5 (skipn (S idx) lines)).

(** The price of the last entry of a price history. *)
Definition last_price (history : list DbManager.price_point) : option price :=
  match last (map Some history) None with
  | None => None
  | Some point => Some (DbManager.point_price point)
  end.

(** The columns of a row that an update leaves alone. *)
Definition kept_columns (row : DbManager.product)
  : Z * string * string * string * string * string * string * string :=
  (DbManager.id row, DbManager.gfs_item_code row, DbManager.description row,
   DbManager.brand row, DbManager.pack_size row, DbManager.category_code row,
   DbManager.category_name row, DbManager.first_seen row).

Section BatchVocabulary.

Context {C : Collaborators}.

(** Processing [pdf] on the catalog [db] raises out of the inner loop:
    [parse_invoice] or [add_invoice] does. *)
Definition file_raises (db : database) (pdf : pdf_path) : bool :=
  match parse_invoice pdf with
  | inl _ => true
  | inr result =>
      match add_invoice db (invoice_info result) with
      | inl _ => true
      | inr _ => false
      end
  end.

(** For each file of the batch in order, whether processing it raises
    on the catalog as the files before it left it. *)
Fixpoint raising_files (db : database) (files : list pdf_path) : list bool :=
  match files with
  | [] => []
  | pdf :: files' => file_raises db pdf :: raising_files (fst (process_file db pdf)) files'
  end.

(** Storing [item] on the catalog [db] raises. *)
Definition item_raises (db : database) (invoice_id : Z) (item : LineItem) : bool :=
  match upsert_product db item with
  | inl _ => true
  | inr (db1, product_id) =>
      match add_invoice_item db1 invoice_id product_id item with
      | inl _ => true
      | inr _ => false
      end
  end.

(** The catalog after the attempt to store [item], by what the two
    methods return: the catalog [add_invoice_item] leaves when both
    return, the one [upsert_product] leaves when [add_invoice_item]
    raises, and [db] itself when [upsert_product] raises. *)
Definition after_item (db : database) (invoice_id : Z) (item : LineItem) : database :=
  match upsert_product db item with
  | inl _ => db
  | inr (db1, product_id) =>
      match add_invoice_item db1 invoice_id product_id item with
      | inl _ => db1
      | inr db2 => db2
      end
  end.

(** The catalog after the items of [todo], attempted one after the
    other in their order. *)
Definition after_items (db : database) (invoice_id : Z) (todo : list LineItem) : database :=
  fold_left (fun db' item => after_item db' invoice_id item) todo db.

(** The catalog after the file [pdf], by what the methods return: [db]
    itself when processing the file raises, and otherwise the catalog
    [add_invoice] leaves, after the items of the file. *)
Definition after_file (db : database) (pdf : pdf_path) : database :=
  match parse_invoice pdf with
  | inl _ => db
  | inr result =>
      match add_invoice db (invoice_info result) with
      | inl _ => db
      | inr (db1, invoice_id) => after_items db1 invoice_id (items result)
      end
  end.

End BatchVocabulary.

(** * Sample data

    Concrete lines, catalogs and batches on which the statements below
    are run. *)

Definition sample_item (description : string) (p : price) : LineItem :=
  {| item_code := "123456";
     quantity_ordered := 10;
     quantity_shipped := 10;
     unit := "CS";
     pack_size := "6x10 LB";
     brand := "Markon";
     description := description;
     category_code := "PR";
     category_name := "Produce";
     invoice_value := 0%N;
     unit_price := p;
     extended_price := (10 * p)%N;
     raw_line := "" |}.

Definition sample_catalog : DbManager.table :=
  [ {| DbManager.id := 1;
       DbManager.gfs_item_code := "654321";
       DbManager.description := "Whole Milk";
       DbManager.brand := "Gordon";
       DbManager.pack_size := "4x1 GA";
       DbManager.category_code := "DY";
       DbManager.category_name := "Dairy";
       DbManager.unit_price := 1899%N;
       DbManager.price_history :=
         [ {| DbManager.point_date := "2024-02-01"; DbManager.point_price := 1899%N |} ];
       DbManager.first_seen := "2024-02-01";
       DbManager.last_seen := "2024-02-01";
       DbManager.order_count := 1 |};
    {| DbManager.id := 2;
       DbManager.gfs_item_code := "123456";
       DbManager.description := "Fresh Broccoli";
       DbManager.brand := "Markon";
       DbManager.pack_size := "6x10 LB";
       DbManager.category_code := "PR";
       DbManager.category_name := "Produce";
       DbManager.unit_price := 1250%N;
       DbManager.price_history :=
         [ {| DbManager.point_date := "2024-03-01"; DbManager.point_price := 1250%N |} ];
       DbManager.first_seen := "2024-03-01";
       DbManager.last_seen := "2024-03-01";
       DbManager.order_count := 1 |} ].

Definition sample_invoice (items : list LineItem) : Invoice :=
  {| invoice_info := {| number := Some "9001234";
                        date := Some "2024-03-08";
                        location := Some "KINAWA SCHOOL" |};
     items := items |}.

(** A catalog with its tables: the second file cannot be read, and an
    item without a price cannot be stored. *)
Definition working_catalog : Collaborators :=
  {| directory := string;
     catalog_path := string;
     pdf_path := string;
     path_name := fun pdf => pdf;
     database := DbManager.table;
     failure := string;
     open_catalog := fun _ => inr [];
     list_invoices := fun _ =>
       ["2024-03-01_gfs_invoice.pdf"; "2024-03-08_gfs_invoice.pdf";
        "2024-03-15_gfs_invoice.pdf"];
     parse_invoice := fun pdf =>
       if String.eqb pdf "2024-03-08_gfs_invoice.pdf" then inl "No /Root object"
       else inr (sample_invoice [sample_item "Fresh Broccoli" 0%N;
                                 sample_item "Fresh Broccoli" 1250%N]);
     add_invoice := fun db _ => inr (db, 1%Z);
     upsert_product := fun db item =>
       if N.eqb (unit_price item) 0 then inl "CHECK constraint failed"
       else inr (DbManager.upsert_product "2024-03-15" db item);
     add_invoice_item := fun db _ _ _ => inr db;
     get_products_by_category := fun db => inr [("Produce", length db)] |}.

(** A catalog file without tables (schema.sql was not found when the
    catalog was opened): every statement raises. *)
Definition missing_schema : Collaborators :=
  {| directory := string;
     catalog_path := string;
     pdf_path := string;
     path_name := fun pdf => pdf;
     database := Datatypes.unit;
     failure := string;
     open_catalog := fun _ => inr tt;
     list_invoices := fun _ => ["2024-03-01_gfs_invoice.pdf"];
     parse_invoice := fun _ => inr (sample_invoice [sample_item "Fresh Broccoli" 1250%N]);
     add_invoice := fun _ _ => inl "no such table: gfs_invoice_history";
     upsert_product := fun _ _ => inl "no such table: gfs_products";
     add_invoice_item := fun _ _ _ _ => inl "no such table: gfs_invoice_items";
     get_products_by_category := fun _ => inl "no such table: gfs_products" |}.

(** * The rest of the scripts

    What the functions above leave out: the page loop and the invoice
    number and date of [parse_invoice], the product lookups of
    [DatabaseManager], [get_programs_by_category], and the delivery day
    that the route [new_order] suggests. *)

(** ** invoice_parser.py: [parse_invoice] *)

Module InvoiceDocument.

(** [text.split('\n')]; [cur] is the line being read. *)
Fixpoint split_lines_from (cur : string) (text : string) : list string :=
  match text with
  | EmptyString => [cur]
  | String c text' =>
      if Ascii.eqb c "010" then cur :: split_lines_from EmptyString text'
      else split_lines_from (cur ++ String c EmptyString)%string text'
  end.

Definition split_lines (text : string) : list string :=
  split_lines_from EmptyString text.

(** [s[n:]] *)
Definition drop (n : nat) (s : string) : string :=
  String.substring n (String.length s - n) s.

(** The pattern [Invoice\s+(\d+)] anchored at the start of [s]: the
    text of group 1.  [\s+] takes the whole run of whitespace (giving
    some of it back cannot help, a digit is no whitespace) and [\d+] the
    whole run of digits. *)
Definition match_number_at (s : string) : option string :=
  if String.prefix "Invoice" s then
    let after := drop 7 s in
    let rest := Py.lstrip after in
    if String.length rest <? String.length after then
      match Py.span_digits rest with
      | (String c d, _) => Some (String c d)
      | (EmptyString, _) => None
      end
    else None
  else None.

(** [re.search(r'Invoice\s+(\d+)', s)]: the leftmost start that matches. *)
Fixpoint search_number (s : string) : option string :=
  match match_number_at s with
  | Some g => Some g
  | None =>
      match s with
      | EmptyString => None
      | String _ s' => search_number s'
      end
  end.

(** [\d{2}/\d{2}/\d{4}] covering [g]. *)
Definition date_shaped (g : string) : bool :=
  match g with
  | String m1 (String m2 (String "/" (String d1 (String d2 (String "/"
      (String y1 (String y2 (String y3 (String y4 EmptyString))))))))) =>
      forallb Py.isdigit [m1; m2; d1; d2; y1; y2; y3; y4]
  | _ => false
  end.

(** The pattern [Invoice Date\s+(\d{2}/\d{2}/\d{4})] anchored at the
    start of [s]: the text of group 1. *)
Definition match_date_at (s : string) : option string :=
  if String.prefix "Invoice Date" s then
    let after := drop 12 s in
    let rest := Py.lstrip after in
    if String.length rest <? String.length after then
      let g := String.substring 0 10 rest in
      if date_shaped g then Some g else None
    else None
  else None.

Fixpoint search_date (s : string) : option string :=
  match match_date_at s with
  | Some g => Some g
  | None =>
      match s with
      | EmptyString => None
      | String _ s' => search_date s'
      end
  end.

(** A [datetime.date]. *)
Record calendar_date : Type := {
  cal_year : Z;
  cal_month : Z;
  cal_day : Z
}.

Definition is_leap (y : Z) : bool :=
  ((y mod 4 =? 0) && (negb (y mod 100 =? 0) || (y mod 400 =? 0)))%Z.

Definition days_in_month (y m : Z) : Z :=
  if (m =? 2)%Z then (if is_leap y then 29 else 28)%Z
  else if ((m =? 4) || (m =? 6) || (m =? 9) || (m =? 11))%Z then 30%Z
  else 31%Z.

(** [datetime.strptime(g, '%m/%d/%Y').date()] on a text of the shape
    [dd/dd/dddd]: the directives take the month 01..12, the day 01..31
    and four digits of year, and the date must exist (year 1 at least,
    the day within the month). *)
Definition strptime_mdY (g : string) : result calendar_date :=
  if date_shaped g then
    let m := Z.of_N (Py.digits_value 0 (String.substring 0 2 g)) in
    let d := Z.of_N (Py.digits_value 0 (String.substring 3 2 g)) in
    let y := Z.of_N (Py.digits_value 0 (String.substring 6 4 g)) in
    if ((1 <=? m) && (m <=? 12) && (1 <=? d) && (d <=? 31) &&
        (1 <=? y) && (d <=? days_in_month y m))%Z
    then ok {| cal_year := y; cal_month := m; cal_day := d |}
    else raise ValueError
  else raise ValueError.

(** [invoice_info]: an absent key is [None]. *)
Record metadata : Type := {
  meta_number : option string;
  meta_date : option calendar_date;
  meta_location : option string
}.

Definition no_metadata : metadata :=
  {| meta_number := None; meta_date := None; meta_location := None |}.

(** Truth value of [invoice_info.get('number')]. *)
Definition has_number (info : metadata) : bool :=
  match meta_number info with
  | Some (String _ _) => true
  | _ => false
  end.

(** Lines 148-151. *)
Definition number_step (info : metadata) (line : string) : metadata :=
  if Py.contains "Invoice" line && negb (has_number info) then
    match search_number line with
    | Some g => {| meta_number := Some g;
                   meta_date := meta_date info;
                   meta_location := meta_location info |}
    | None => info
    end
  else info.

(** Lines 153-156. *)
Definition date_step (info : metadata) (line : string) : result metadata :=
  if Py.contains "Invoice Date" line then
    match search_date line with
    | Some g =>
        d <- strptime_mdY g ;;
        ok {| meta_number := meta_number info;
              meta_date := Some d;
              meta_location := meta_location info |}
    | None => ok info
    end
  else ok info.

(** Lines 158-165, with the loop of the location above. *)
Definition location_step (lines : list string) (info : metadata) (line : string)
  : result metadata :=
  location <- InvoiceParser.ship_to_step lines (meta_location info) line ;;
  ok {| meta_number := meta_number info;
        meta_date := meta_date info;
        meta_location := location |}.

(** The loop [for line in lines] of the first page. *)
Fixpoint metadata_loop (lines : list string) (info : metadata) (todo : list string)
  : result metadata :=
  match todo with
  | [] => ok info
  | line :: todo' =>
      info2 <- date_step (number_step info line) line ;;
      info3 <- location_step lines info2 line ;;
      metadata_loop lines info3 todo'
  end.

(** The loop [for line in lines] that collects the items. *)
Fixpoint items_loop (items : list InvoiceParser.LineItem) (todo : list string)
  : result (list InvoiceParser.LineItem) :=
  match todo with
  | [] => ok items
  | line :: todo' =>
      item <- InvoiceParser.parse_line_item line ;;
      match item with
      | Some it => items_loop (items ++ [it]) todo'
      | None => items_loop items todo'
      end
  end.

(** What [parse_invoice] returns. *)
Record parsed : Type := {
  parsed_info : metadata;
  parsed_items : list InvoiceParser.LineItem
}.

(** The loop over [enumerate(pdf.pages)]; a page is the value of its
    [extract_text()], [None] or a text. *)
Fixpoint pages_loop (page_num : nat) (pages : list (option string))
    (info : metadata) (items : list InvoiceParser.LineItem) : result parsed :=
  match pages with
  | [] => ok {| parsed_info := info; parsed_items := items |}
  | page :: pages' =>
      match page with
      | None => pages_loop (S page_num) pages' info items
      | Some EmptyString => pages_loop (S page_num) pages' info items
      | Some text =>
          let lines := split_lines text in
          info' <- (if page_num =? 0 then metadata_loop lines info lines else ok info) ;;
          items' <- items_loop items lines ;;
          pages_loop (S page_num) pages' info' items'
      end
  end.

(** [parse_invoice] on the texts of the pages of the file. *)
Definition parse_invoice (pages : list (option string)) : result parsed :=
  pages_loop 0 pages no_metadata [].

End InvoiceDocument.

(** ** db_manager.py: lookups and programs *)

Module DbQueries.

(** [get_product]: [SELECT * FROM gfs_products WHERE id = ?] with
    [fetchone()]. *)
Definition get_product (conn : DbManager.table) (product_id : Z)
  : option DbManager.product :=
  find (fun row => Z.eqb (DbManager.id row) product_id) conn.

Section Programs.

(** A row of [gfs_programs] and the value of its column [category]. *)
Variable program : Type.
Variable key : Type.
Variable key_eqb : key -> key -> bool.
Variable category : program -> key.

(** [categories[cat].append(p)] on a dict that holds [cat]. *)
Fixpoint dict_append (categories : list (key * list program)) (cat : key) (p : program)
  : list (key * list program) :=
  match categories with
  | [] => []
  | (k, ps) :: categories' =>
      if key_eqb k cat then (k, ps ++ [p]) :: categories'
      else (k, ps) :: dict_append categories' cat p
  end.

(** One iteration of [for p in programs]; a new key goes to the end of
    the dict. *)
Definition group_step (categories : list (key * list program)) (p : program)
  : list (key * list program) :=
  let cat := category p in
  let categories' :=
    if existsb (fun kv => key_eqb (fst kv) cat) categories then categories
    else categories ++ [(cat, [])] in
  dict_append categories' cat p.

(** [get_programs_by_category] on the rows that [get_programs] returns. *)
Definition get_programs_by_category (programs : list program)
  : list (key * list program) :=
  fold_left group_step programs [].

(** [categories.get(cat)] *)
Fixpoint dict_lookup (categories : list (key * list program)) (cat : key)
  : option (list program) :=
  match categories with
  | [] => None
  | (k, ps) :: categories' =>
      if key_eqb k cat then Some ps else dict_lookup categories' cat
  end.

End Programs.

End DbQueries.

(** ** gfs_routes.py: the suggested delivery day *)

Module Routes.

(** Lines 99-102 of [new_order]: the number of days added to today,
    whose [weekday()] is [weekday] (0 for Monday). *)
Definition days_until_tuesday (weekday : Z) : Z :=
  let d := ((1 - weekday) mod 7)%Z in
  if (d =? 0)%Z then 7%Z else d.

End Routes.

(** ** Vocabulary for the properties of the rest *)

(** What the tokenizer yields: a non-empty text without whitespace. *)
Definition token (t : string) : Prop := t <> EmptyString /\ spaceless t.

(** The tokens of a field of an item. *)
Definition field_tokens (field : string) : list string := Py.split field.

(** An item without its [raw_line]. *)
Definition without_raw_line (item : LineItem) : LineItem :=
  {| item_code := item_code item;
     quantity_ordered := quantity_ordered item;
     quantity_shipped := quantity_shipped item;
     unit := unit item;
     pack_size := pack_size item;
     brand := brand item;
     description := description item;
     category_code := category_code item;
     category_name := category_name item;
     invoice_value := invoice_value item;
     unit_price := unit_price item;
     extended_price := extended_price item;
     raw_line := EmptyString |}.

(** The result of the parser without the [raw_line]. *)
Definition parsed_fields (r : result (option LineItem)) : result (option LineItem) :=
  match r with
  | inr (Some item) => inr (Some (without_raw_line item))
  | other => other
  end.

(** The first and the last value of a list of optional values. *)
Fixpoint first_some {A : Type} (l : list (option A)) : option A :=
  match l with
  | [] => None
  | Some x :: _ => Some x
  | None :: l' => first_some l'
  end.

Definition last_some_or {A : Type} (start : option A) (l : list (option A)) : option A :=
  fold_left (fun acc o => match o with Some x => Some x | None => acc end) l start.

Definition last_some {A : Type} (l : list (option A)) : option A := last_some_or None l.

(** The date that a line gives, when it has a match and the match is a
    date of the calendar. *)
Definition line_date (line : string) : option InvoiceDocument.calendar_date :=
  match InvoiceDocument.search_date line with
  | Some g =>
      match InvoiceDocument.strptime_mdY g with
      | inr d => Some d
      | inl _ => None
      end
  | None => None
  end.

(** A line with a match of the date pattern that is no date of the
    calendar. *)
Definition bad_date (line : string) : bool :=
  match InvoiceDocument.search_date line with
  | Some g =>
      match InvoiceDocument.strptime_mdY g with
      | inr _ => false
      | inl _ => true
      end
  | None => false
  end.

(** Index of the first element of [lines] equal to [line]. *)
Fixpoint first_position (lines : list string) (line : string) : nat :=
  match lines with
  | [] => 0
  | l :: lines' => if String.eqb l line then 0 else S (first_position lines' line)
  end.

(** The location that the line [line] of the page [lines] gives: the
    match of its window, when it contains "Ship To:". *)
Definition anchor_location (lines : list string) (line : string) : option string :=
  if Py.contains "Ship To:" line
  then first_match (firstn 5 (skipn (first_position lines line) lines))
  else None.

(** The items of a line, of a page and of a document. *)
Definition line_items (line : string) : list LineItem :=
  match parse_line_item line with
  | inr (Some item) => [item]
  | _ => []
  end.

Definition page_items (page : option string) : list LineItem :=
  match page with
  | None => []
  | Some text => flat_map line_items (InvoiceDocument.split_lines text)
  end.

Definition document_items (pages : list (option string)) : list LineItem :=
  flat_map page_items pages.

(** A document of two pages. *)
Definition sample_first_page : string :=
  "GORDON FOOD SERVICE
Invoice 9001234
Invoice Date 03/08/2024
Ship To: 0042
KINAWA ELEMENTARY SCHOOL
123456 10 10 CS 6x10 LB Markon Fresh Broccoli PR 0.00 12.50 125.00
Invoice 777".

Definition sample_second_page : string :=
  "Invoice Date 02/30/2024
654321 2 2 CS 4x1 GA Gordon Whole Milk DY 0.00 18.99 37.98".

Definition sample_pages : list (option string) :=
  [Some sample_first_page; Some sample_second_page].

(** No two neighbours of a list of prices are equal. *)
Fixpoint no_repeat (l : list price) : Prop :=
  match l with
  | [] => True
  | a :: l' =>
      match l' with
      | [] => True
      | b :: _ => a <> b /\ no_repeat l'
      end
  end.

(** A row whose columns agree with each other: the last entry of the
    history is the current price, every call was counted, no call added
    more than one entry to the history, and an entry was added only for
    a new price. *)
Definition row_coherent (row : DbManager.product) : Prop :=
  last_price (DbManager.price_history row) = Some (DbManager.unit_price row) /\
  (1 <= DbManager.order_count row)%Z /\
  (Z.of_nat (length (DbManager.price_history row)) <= DbManager.order_count row)%Z /\
  no_repeat (map DbManager.point_price (DbManager.price_history row)).

(** Several calls of [upsert_product] in a row, each with its day. *)
Definition upsert_all (conn : DbManager.table) (calls : list (string * LineItem))
  : DbManager.table :=
  fold_left (fun c call => fst (DbManager.upsert_product (fst call) c (snd call))) calls conn.

(** The [order_count] recorded for an item code, 0 when the catalog does
    not hold it. *)
Definition order_count_of (conn : DbManager.table) (code : string) : Z :=
  match DbManager.get_product_by_code conn code with
  | Some row => DbManager.order_count row
  | None => 0%Z
  end.

(** The calls for an item code. *)
Definition calls_for (code : string) (calls : list (string * LineItem))
  : list (string * LineItem) :=
  filter (fun call => String.eqb (item_code (snd call)) code) calls.

(** A list as the value of a dict entry that exists only when it has an
    element. *)
Definition nonempty {A : Type} (l : list A) : option (list A) :=
  match l with
  | [] => None
  | _ :: _ => Some l
  end.

Section BatchVocabularyMore.

Context {C : Collaborators}.

(** The files of a batch whose processing does not raise, each tried on
    the catalog as the files before it left it. *)
Fixpoint kept_files (db : database) (files : list pdf_path) : list pdf_path :=
  match files with
  | [] => []
  | pdf :: files' =>
      if file_raises db pdf then kept_files db files'
      else pdf :: kept_files (fst (process_file db pdf)) files'
  end.

End BatchVocabularyMore.

(** * Properties *)

(** ** The model on concrete inputs *)

Example split_collapses_whitespace :
  Py.split (Py.strip "  123456  10	a   ") = ["123456"; "10"; "a"].
Proof. reflexivity. Qed.

Example int_literals :
  Py.int "10" = inr 10%Z /\ Py.int "-3" = inr (-3)%Z /\ Py.int "1_000" = inr 1000%Z /\
  Py.int "1.5" = inl ValueError /\ Py.int "1__0" = inl ValueError /\
  Py.int "" = inl ValueError.
Proof. repeat split. Qed.

Example price_tokens :
  price_token "125.00" = Some 12500%N /\ price_token "007.50" = Some 750%N /\
  price_token ".50" = None /\ price_token "1.5" = None /\ price_token "1.500" = None /\
  price_token "12" = None.
Proof. repeat split. Qed.

Example item_codes :
  is_item_code "123456" = true /\ is_item_code "12345" = false /\
  is_item_code "1234567" = false /\ is_item_code "12345a" = false.
Proof. repeat split. Qed.

Example location_pattern :
  search_location "Ship To: KINAWA ELEMENTARY SCHOOL ROOM" = Some "KINAWA ELEMENTARY SCHOOL" /\
  search_location "xx CENTER CENTERS" = Some "CENTER CENTER" /\
  search_location "A SCHOOL" = Some "A SCHOOL" /\
  search_location "ASCHOOL" = None /\
  search_location "Kinawa School" = None.
Proof. repeat split. Qed.

Example eight_tokens_have_no_window :
  category_window ["123456"; "1"; "1"; "CS"; "6x10"; "PR"; "1.00"; "2.00"] = [].
Proof. reflexivity. Qed.

(** ** Indexing *)

Lemma getitem_from_end {A : Type} (l : list A) (k : nat) (x : A) :
  nth_error (rev l) k = Some x ->
  Py.getitem l (- Z.of_nat (S k)) = inr x.
Proof.
  intros H.
  assert (Hk : k < length l).
  { rewrite <- length_rev. apply nth_error_Some. congruence. }
  unfold Py.getitem.
  replace (- Z.of_nat (S k) <? 0)%Z with true by (symmetry; apply Z.ltb_lt; lia).
  replace (- Z.of_nat (S k) + Z.of_nat (length l) <? 0)%Z with false
    by (symmetry; apply Z.ltb_ge; lia).
  replace (Z.to_nat (- Z.of_nat (S k) + Z.of_nat (length l))) with (length l - S k) by lia.
  rewrite nth_error_rev in H.
  destruct (Nat.ltb_spec k (length l)); [|lia].
  now rewrite H.
Qed.

Lemma getitem_in_range {A : Type} (l : list A) (i : Z) :
  (0 <= i < Z.of_nat (length l))%Z ->
  exists x, Py.getitem l i = inr x /\ nth_error l (Z.to_nat i) = Some x.
Proof.
  intros H. unfold Py.getitem.
  destruct (Z.ltb_spec i 0); [lia|].
  destruct (Z.ltb_spec i 0); [lia|].
  destruct (nth_error l (Z.to_nat i)) eqn:E.
  - now exists a.
  - apply nth_error_None in E. lia.
Qed.

(** A list seen from its end. *)
Lemma list_end_cases {A : Type} (l : list A) :
  l = [] \/ (exists c, l = [c]) \/ (exists b c, l = [b; c]) \/
  (exists pre a b c, l = pre ++ [a; b; c]).
Proof.
  rewrite <- (rev_involutive l).
  destruct (rev l) as [|c [|b [|a r]]]; simpl.
  - now left.
  - right; left. now exists c.
  - right; right; left. now exists b, c.
  - right; right; right. exists (rev r), a, b, c.
    now rewrite <- !app_assoc.
Qed.

(** ** Price fields *)

Lemma getitem_last3 {A : Type} (pre : list A) (a b c : A) :
  Py.getitem (pre ++ [a; b; c]) (-3) = inr a /\
  Py.getitem (pre ++ [a; b; c]) (-2) = inr b /\
  Py.getitem (pre ++ [a; b; c]) (-1) = inr c.
Proof.
  repeat split.
  - apply (getitem_from_end _ 2). rewrite rev_app_distr. reflexivity.
  - apply (getitem_from_end _ 1). rewrite rev_app_distr. reflexivity.
  - apply (getitem_from_end _ 0). rewrite rev_app_distr. reflexivity.
Qed.

(** The four branches of [extract_price_fields]. *)
Lemma extract_price_fields_cases (parts : list string) :
  let prices := recovered_prices parts in
  match length prices with
  | 0 => extract_price_fields parts = inr (0, 0, 0)%N
  | 1 => exists c, prices = [c] /\ extract_price_fields parts = inr (0%N, c, c)
  | 2 => exists b c, prices = [b; c] /\ extract_price_fields parts = inr (0%N, b, c)
  | _ => exists pre a b c,
           prices = pre ++ [a; b; c] /\ extract_price_fields parts = inr (a, b, c)
  end.
Proof.
  intros prices. unfold extract_price_fields. fold prices.
  destruct (list_end_cases prices) as [E|[(c & E)|[(b & c & E)|(pre & a & b & c & E)]]];
    rewrite E.
  - reflexivity.
  - exists c. split; reflexivity.
  - exists b, c. split; reflexivity.
  - destruct (getitem_last3 pre a b c) as (Ha & Hb & Hc).
    assert (L : length (pre ++ [a; b; c]) = S (S (S (length pre)))).
    { rewrite length_app. simpl. lia. }
    rewrite L. exists pre, a, b, c. split; [reflexivity|].
    change (3 <=? S (S (S (length pre)))) with true. cbv iota.
    rewrite Ha, Hb, Hc. reflexivity.
Qed.

(** [extract_price_fields] never raises. *)
Lemma extract_price_fields_total (parts : list string) :
  exists fields, extract_price_fields parts = inr fields.
Proof.
  pose proof (extract_price_fields_cases parts) as H. cbv zeta in H.
  destruct (length (recovered_prices parts)) as [|[|[|k]]].
  - eauto.
  - destruct H as (c & _ & H). eauto.
  - destruct H as (b & c & _ & H). eauto.
  - destruct H as (pre & a & b & c & _ & H). eauto.
Qed.

Lemma scan_prices_started (rev_parts : list string) :
  forall v prices,
  exists run rest,
    rev_parts = rev run ++ rest /\
    match rest with [] => True | t :: _ => price_shaped t = false end /\
    exists values,
      prices_of run values /\
      scan_prices rev_parts (v :: prices) = values ++ v :: prices.
Proof.
  induction rev_parts as [|p rp IH]; intros v prices.
  - exists [], []. repeat split. exists []. split; reflexivity.
  - simpl. destruct (price_token p) as [w|] eqn:E.
    + destruct (IH w (v :: prices)) as (run & rest & Hsplit & Hrest & values & Hval & Hscan).
      exists (run ++ [p]), rest. split; [|split; [exact Hrest|]].
      * rewrite rev_app_distr. simpl. now rewrite Hsplit.
      * exists (values ++ [w]). split.
        -- unfold prices_of in *. rewrite !map_app, Hval. simpl. now rewrite E.
        -- rewrite Hscan, <- app_assoc. reflexivity.
    + exists [], (p :: rp). split; [reflexivity|]. split.
      * unfold price_shaped. now rewrite E.
      * exists []. split; reflexivity.
Qed.

Lemma scan_prices_fresh (rev_parts : list string) :
  exists post run rest,
    rev_parts = rev post ++ rev run ++ rest /\
    Forall (fun t => price_shaped t = false) post /\
    match rest with [] => True | t :: _ => price_shaped t = false end /\
    (run = [] /\ rest = [] \/ run <> []) /\
    prices_of run (scan_prices rev_parts []).
Proof.
  induction rev_parts as [|p rp IH].
  - exists [], [], []. repeat split; auto.
  - simpl. destruct (price_token p) as [w|] eqn:E.
    + destruct (scan_prices_started rp w []) as (run & rest & Hsplit & Hrest & values & Hval & Hscan).
      exists [], (run ++ [p]), rest. simpl. split; [|split; [constructor|split; [exact Hrest|split]]].
      * rewrite rev_app_distr. simpl. now rewrite Hsplit.
      * right. now destruct run.
      * rewrite Hscan. unfold prices_of in *. rewrite !map_app, Hval. simpl. now rewrite E.
    + destruct IH as (post & run & rest & Hsplit & Hpost & Hrest & Hrun & Hval).
      exists (post ++ [p]), run, rest. split; [|split; [|split; [exact Hrest|split; assumption]]].
      * rewrite rev_app_distr. simpl. now rewrite Hsplit.
      * apply Forall_app. split; [exact Hpost|]. constructor; [|constructor].
        unfold price_shaped. now rewrite E.
Qed.

(** C3, as the code has it.  Every token sequence splits into [pre],
    [run] and [post] so that no token of [post] is price-shaped, every
    token of [run] is, the token before [run] (if any) is not, and the
    recovered prices are exactly those of [run], in order.  [run] is
    empty only when no token at all is price-shaped.  So the run that
    is recovered ends at the last price-shaped token of the line, which
    need not be its last token, and a price-shaped token elsewhere is
    not collected. *)
Theorem recovered_prices_last_run (parts : list string) :
  exists pre run post,
    parts = pre ++ run ++ post /\
    Forall (fun t => price_shaped t = false) post /\
    match rev pre with [] => True | t :: _ => price_shaped t = false end /\
    (run = [] /\ pre = [] \/ run <> []) /\
    prices_of run (recovered_prices parts).
Proof.
  destruct (scan_prices_fresh (rev parts))
    as (post & run & rest & Hsplit & Hpost & Hrest & Hrun & Hval).
  exists (rev rest), run, post. split; [|split; [exact Hpost|split; [|split]]].
  - rewrite <- (rev_involutive parts), Hsplit.
    rewrite !rev_app_distr, !rev_involutive, app_assoc. reflexivity.
  - now rewrite rev_involutive.
  - destruct Hrun as [[-> ->]|Hrun]; [left|right]; auto.
  - exact Hval.
Qed.

(** C3 as stated fails: the last token is not price-shaped, and still
    three prices are recovered. *)
Lemma trailing_run_counterexample :
  let parts := ["123456"; "10"; "10"; "CS"; "6x10"; "LB"; "Markon"; "Broccoli";
                "PR"; "0.00"; "12.50"; "125.00"; "*"] in
  price_shaped (last parts "") = false /\
  recovered_prices parts = [0; 1250; 12500]%N.
Proof. vm_compute. split; reflexivity. Qed.

(** ** Category locator *)

Lemma mem_true_iff (x : string) (l : list string) : Py.mem x l = true <-> In x l.
Proof.
  unfold Py.mem. rewrite existsb_exists. split.
  - intros (y & Hy & E). apply String.eqb_eq in E. now subst.
  - intros H. exists x. split; [exact H|apply String.eqb_refl].
Qed.

Lemma is_category_key (token : string) : is_category token = true <-> registry_key token.
Proof.
  unfold is_category, registry_key. rewrite mem_true_iff, in_map_iff. split.
  - intros ((k, v) & E & H). simpl in E. subst. now exists v.
  - intros (v & H). now exists (token, v).
Qed.

Lemma is_category_not_key (token : string) :
  is_category token = false <-> ~ registry_key token.
Proof.
  rewrite <- is_category_key. destruct (is_category token); split; congruence.
Qed.

Lemma range_down_nil (start stop : Z) : (start <= stop)%Z -> Py.range_down start stop = [].
Proof.
  intros H. unfold Py.range_down.
  replace (Z.to_nat (start - stop)) with 0 by lia. reflexivity.
Qed.

Lemma range_down_cons (start stop : Z) :
  (stop < start)%Z ->
  Py.range_down start stop = start :: Py.range_down (start - 1) stop.
Proof.
  intros H. unfold Py.range_down.
  replace (Z.to_nat (start - stop)) with (S (Z.to_nat (start - 1 - stop))) by lia.
  simpl. f_equal; [lia|].
  rewrite <- seq_shift, map_map. apply map_ext. intros k. lia.
Qed.

Lemma scan_category_range (parts : list string) (stop : Z) :
  (0 <= stop)%Z ->
  forall (n : nat) (start : Z),
  Z.to_nat (start - stop) = n ->
  (start < Z.of_nat (length parts))%Z ->
  match scan_category parts (Py.range_down start stop) with
  | inr (Some (c, i)) =>
      (stop < i <= start)%Z /\
      nth_error parts (Z.to_nat i) = Some c /\
      registry_key c /\
      forall j t, (i < j <= start)%Z -> nth_error parts (Z.to_nat j) = Some t ->
                  ~ registry_key t
  | inr None =>
      forall j t, (stop < j <= start)%Z -> nth_error parts (Z.to_nat j) = Some t ->
                  ~ registry_key t
  | inl _ => False
  end.
Proof.
  intros Hstop n. induction n as [|n IH]; intros start Hn Hlen.
  - rewrite range_down_nil by lia. simpl. intros j t Hj. lia.
  - rewrite range_down_cons by lia. simpl.
    destruct (Z.leb_spec 0 start); [|lia].
    destruct (getitem_in_range parts start) as (p & Hget & Hnth); [lia|].
    rewrite Hget. simpl.
    destruct (is_category p) eqn:Hcat.
    + simpl. split; [lia|]. split; [exact Hnth|]. split; [now apply is_category_key|].
      intros j t Hj. lia.
    + specialize (IH (start - 1)%Z). 
      assert (Hn' : Z.to_nat (start - 1 - stop) = n) by lia.
      assert (Hlen' : (start - 1 < Z.of_nat (length parts))%Z) by lia.
      specialize (IH Hn' Hlen').
      assert (Hstart : forall j t, j = start -> nth_error parts (Z.to_nat j) = Some t ->
                                   ~ registry_key t).
      { intros j t -> Ht. rewrite Hnth in Ht. injection Ht as <-.
        now apply is_category_not_key. }
      destruct (scan_category parts (Py.range_down (start - 1) stop))
        as [e|[(c, i)|]]; [exact IH| |].
      * destruct IH as (Hi & Hc & Hkey & Hbefore).
        split; [lia|]. split; [exact Hc|]. split; [exact Hkey|].
        intros j t Hj Ht. destruct (Z.eq_dec j start) as [Ej|Ej].
        -- eapply Hstart; eauto.
        -- apply (Hbefore j t); [lia|exact Ht].
      * intros j t Hj Ht. destruct (Z.eq_dec j start) as [Ej|Ej].
        -- eapply Hstart; eauto.
        -- apply (IH j t); [lia|exact Ht].
Qed.

(** The locator on any token sequence: it never raises, and its answer is
    the key at the largest index of the window. *)
Lemma locate_category_spec (parts : list string) :
  let n := Z.of_nat (length parts) in
  let in_window := fun i => (Z.max 4 (n - 10) < i <= n - 4)%Z in
  match locate_category parts with
  | inr (Some (c, i)) =>
      in_window i /\
      nth_error parts (Z.to_nat i) = Some c /\
      registry_key c /\
      forall j t, in_window j -> (i < j)%Z ->
                  nth_error parts (Z.to_nat j) = Some t -> ~ registry_key t
  | inr None =>
      forall j t, in_window j -> nth_error parts (Z.to_nat j) = Some t ->
                  ~ registry_key t
  | inl _ => False
  end.
Proof.
  intros n in_window. unfold locate_category, category_window. fold n.
  pose proof (scan_category_range parts (Z.max 4 (n - 10)) ltac:(lia)
                (Z.to_nat (n - 4 - Z.max 4 (n - 10))) (n - 4)%Z eq_refl ltac:(lia)) as H.
  destruct (scan_category parts (Py.range_down (n - 4) (Z.max 4 (n - 10))))
    as [e|[(c, i)|]]; [exact H| |].
  - destruct H as (Hi & Hc & Hkey & Hbefore). unfold in_window.
    split; [lia|]. split; [exact Hc|]. split; [exact Hkey|].
    intros j t Hj Hij. apply Hbefore. lia.
  - intros j t Hj. apply H. exact Hj.
Qed.

(** ** The line-item parser *)

Lemma is_category_nonempty (token : string) :
  is_category token = true -> String.eqb token "" = false.
Proof.
  intros H. apply is_category_key in H. destruct H as (name & H).
  simpl in H.
  repeat (destruct H as [H|H]; [injection H as <- _; reflexivity|]).
  contradiction.
Qed.

Lemma int_raises_value_error (s : string) :
  Py.int s = inl ValueError \/ exists z, Py.int s = inr z.
Proof.
  unfold Py.int.
  destruct (match Py.strip s with
            | String "+" r => (false, r)
            | String "-" r => (true, r)
            | _ => (false, Py.strip s)
            end) as (neg, body).
  destruct (Py.int_digits 0 false body); [right; eauto|left; reflexivity].
Qed.

Lemma quantities_outcome (parts : list string) :
  3 <= length parts ->
  quantities parts = inl ValueError \/ exists q, quantities parts = inr q.
Proof.
  intros H. unfold quantities.
  destruct (getitem_in_range parts 1) as (p1 & -> & _); [lia|].
  destruct (getitem_in_range parts 2) as (p2 & -> & _); [lia|].
  simpl.
  destruct (int_raises_value_error p1) as [->|(z1 & ->)]; [now left|].
  simpl.
  destruct (int_raises_value_error p2) as [->|(z2 & ->)]; [now left|].
  right. simpl. eauto.
Qed.

(** What [parse_line_item] does, test by test. *)
Lemma parse_line_item_cases (line : string) :
  let parts := Py.split (Py.strip line) in
  (classifier_accepts parts = false /\ parse_line_item line = inr None) \/
  (classifier_accepts parts = true /\
   ((locate_category parts = inr None /\ parse_line_item line = inr None) \/
    exists c i,
      locate_category parts = inr (Some (c, i)) /\
      ((quantities parts = inl ValueError /\ parse_line_item line = inr None) \/
       exists qo qs code u inv up ex ps br de,
         quantities parts = inr (qo, qs) /\
         nth_error parts 0 = Some code /\
         nth_error parts 3 = Some u /\
         extract_price_fields parts = inr (inv, up, ex) /\
         segment_fields (Py.slice parts 4 (Z.to_nat i)) = (ps, br, de) /\
         parse_line_item line =
           inr (Some {| item_code := code;
                        quantity_ordered := qo;
                        quantity_shipped := qs;
                        unit := u;
                        pack_size := ps;
                        brand := br;
                        description := de;
                        category_code := c;
                        category_name := dict_get CATEGORY_MAP c c;
                        invoice_value := inv;
                        unit_price := up;
                        extended_price := ex;
                        raw_line := Py.strip line |})))).
Proof.
  intros parts. unfold parse_line_item, classifier_accepts. fold parts.
  destruct (Nat.ltb_spec (length parts) 8) as [Hlen|Hlen].
  { left. split; [|reflexivity].
    destruct (Nat.leb_spec 8 (length parts)); [lia|reflexivity]. }
  destruct (Nat.leb_spec 8 (length parts)) as [_|]; [|lia].
  destruct (getitem_in_range parts 0) as (p0 & Hg0 & Hn0); [lia|].
  rewrite Hg0. simpl in Hn0.
  destruct parts as [|first rest] eqn:Eparts; [discriminate|].
  injection Hn0 as ->. rewrite <- Eparts in *. simpl bind. simpl andb.
  destruct (is_item_code p0); simpl negb; cbv iota; [|left; split; reflexivity].
  right. split; [reflexivity|].
  destruct (extract_price_fields_total parts) as (((inv, up), ex) & Hprices).
  rewrite Hprices. simpl bind.
  pose proof (locate_category_spec parts) as Hloc. cbv zeta in Hloc.
  destruct (locate_category parts) as [e|[(c, i)|]]; [contradiction| |].
  2:{ left. split; reflexivity. }
  right. exists c, i. split; [reflexivity|]. simpl bind.
  destruct Hloc as (_ & _ & Hkey & _).
  apply is_category_key, is_category_nonempty in Hkey. rewrite Hkey.
  destruct (quantities_outcome parts) as [Hq|((qo, qs) & Hq)]; [lia| |]; rewrite Hq.
  { left. split; reflexivity. }
  right.
  destruct (Nat.ltb_spec 3 (length parts)) as [_|]; [|lia].
  destruct (getitem_in_range parts 3) as (u & Hg3 & Hn3); [lia|].
  rewrite Hg3. simpl bind.
  destruct (segment_fields (Py.slice parts 4 (Z.to_nat i))) as ((ps, br), de) eqn:Hseg.
  exists qo, qs, p0, u, inv, up, ex, ps, br, de.
  repeat split; try reflexivity; try assumption.
  rewrite Eparts. reflexivity.
Qed.

(** C1. The result of [extract_price_fields] is fixed by the number [k]
    of recovered prices: none gives three zeros; one gives zero and that
    price twice; two give zero and the two in order; three or more give
    the last three in their order.  These three values are the fields
    [invoice_value], [unit_price] and [extended_price] of the item
    parsed from a line with these tokens. *)
Theorem extract_price_fields_by_count (parts : list string) :
  let prices := recovered_prices parts in
  match length prices with
  | 0 => extract_price_fields parts = inr (0, 0, 0)%N
  | 1 => exists c, prices = [c] /\ extract_price_fields parts = inr (0%N, c, c)
  | 2 => exists b c, prices = [b; c] /\ extract_price_fields parts = inr (0%N, b, c)
  | _ => exists pre a b c,
           prices = pre ++ [a; b; c] /\ extract_price_fields parts = inr (a, b, c)
  end /\
  forall line item,
    Py.split (Py.strip line) = parts ->
    parse_line_item line = inr (Some item) ->
    extract_price_fields parts = inr (invoice_value item, unit_price item, extended_price item).
Proof.
  split; [exact (extract_price_fields_cases parts)|].
  intros line item Hparts Hitem.
  pose proof (parse_line_item_cases line) as H. cbv zeta in H. rewrite Hparts in H.
  destruct H as [(_ & Hnone)|(_ & [(_ & Hnone)|(c & i & _ & H)])];
    [congruence|congruence|].
  destruct H as [(_ & Hnone)|
                 (qo & qs & code & u & inv & up & ex & ps & br & de &
                  _ & _ & _ & Hprices & _ & Hsome)]; [congruence|].
  rewrite Hsome in Hitem. injection Hitem as <-. exact Hprices.
Qed.

Lemma spaceless_snoc (cur : string) (c : ascii) :
  spaceless cur -> Py.isspace c = false -> spaceless (cur ++ String c EmptyString)%string.
Proof.
  unfold spaceless. induction cur as [|d cur IH]; simpl; intros Hcur Hc.
  - constructor; [exact Hc|constructor].
  - inversion Hcur; subst. constructor; auto.
Qed.

Lemma split_from_spaceless (s : string) :
  forall cur, spaceless cur -> Forall spaceless (Py.split_from cur s).
Proof.
  induction s as [|c s IH]; intros cur Hcur; simpl.
  - destruct cur; [constructor|]. constructor; [exact Hcur|constructor].
  - destruct (Py.isspace c) eqn:Hc.
    + destruct cur.
      * apply IH. constructor.
      * constructor; [exact Hcur|]. apply IH. constructor.
    + apply IH. now apply spaceless_snoc.
Qed.

Lemma split_spaceless (s : string) : Forall spaceless (Py.split s).
Proof. apply split_from_spaceless. constructor. Qed.

Lemma chomp_spaceless (t : string) : spaceless t -> Py.chomp t = t.
Proof.
  unfold spaceless. induction t as [|c t IH]; [reflexivity|].
  simpl. intros H. inversion H as [|? ? Hc Ht]; subst.
  destruct t as [|d t].
  - destruct (Ascii.eqb_spec c "010") as [->|_]; [discriminate|reflexivity].
  - f_equal. now apply IH.
Qed.

Lemma is_item_code_six_digits (t : string) :
  spaceless t -> (is_item_code t = true <-> six_digits t).
Proof.
  intros H. unfold is_item_code, six_digits.
  rewrite (chomp_spaceless t H), andb_true_iff, Nat.eqb_eq, forallb_forall, Forall_forall.
  reflexivity.
Qed.

Lemma classifier_rejects_iff (line : string) :
  let parts := Py.split (Py.strip line) in
  classifier_accepts parts = false <->
  length parts < 8 \/ exists first rest, parts = first :: rest /\ ~ six_digits first.
Proof.
  intros parts. unfold classifier_accepts.
  pose proof (split_spaceless (Py.strip line)) as Hsp. fold parts in Hsp.
  destruct (Nat.leb_spec 8 (length parts)) as [Hlen|Hlen]; simpl.
  - destruct parts as [|first rest]; [simpl in Hlen; lia|].
    inversion Hsp as [|? ? Hfirst _]; subst.
    pose proof (is_item_code_six_digits first Hfirst) as Hcode.
    split.
    + intros E. right. exists first, rest. split; [reflexivity|].
      rewrite <- Hcode. congruence.
    + intros [Hlt|(f & r & E & Hnot)]; [lia|].
      injection E as <- <-. rewrite <- Hcode in Hnot.
      now destruct (is_item_code first).
  - split; [intros _; now left|reflexivity].
Qed.

(** C2, as the code has it.  [parse_line_item] never raises, and it
    returns [None] exactly when the line has fewer than 8 tokens, or its
    first token is not six ASCII digits, or no token of the window is a
    category code, or the second or third token is not an integer
    literal; in every other case it returns an item. *)
Theorem parse_line_item_null_iff (line : string) :
  let parts := Py.split (Py.strip line) in
  (exists r, parse_line_item line = inr r) /\
  (parse_line_item line = inr None <->
     length parts < 8 \/
     (exists first rest, parts = first :: rest /\ ~ six_digits first) \/
     locate_category parts = inr None \/
     quantities parts = inl ValueError).
Proof.
  intros parts.
  pose proof (classifier_rejects_iff line) as Hcl. cbv zeta in Hcl. fold parts in Hcl.
  pose proof (parse_line_item_cases line) as H. cbv zeta in H. fold parts in H.
  destruct H as [(Hrej & Hnone)|(Hacc & [(Hloc & Hnone)|(c & i & Hloc & H)])].
  - split; [eauto|]. split; [intros _|intros _; exact Hnone].
    apply Hcl in Hrej. tauto.
  - split; [eauto|]. split; [intros _; tauto|intros _; exact Hnone].
  - destruct H as [(Hq & Hnone)|
                   (qo & qs & code & u & inv & up & ex & ps & br & de & Hq & _ & _ & _ & _ & Hsome)].
    + split; [eauto|]. split; [intros _; tauto|intros _; exact Hnone].
    + split; [eauto|]. rewrite Hsome. split; [discriminate|].
      intros [Hlt|[Hfirst|[Hnoloc|Hnoq]]].
      * assert (classifier_accepts parts = false) by (apply Hcl; now left). congruence.
      * assert (classifier_accepts parts = false) by (apply Hcl; now right). congruence.
      * congruence.
      * congruence.
Qed.

(** C2 as stated fails: the classifier accepts the line and the locator
    finds the code [PR], yet the result is [None], because the second
    token is not an integer literal. *)
Lemma quantity_reject_counterexample :
  let line := "123456 1.5 10 CS 6x10 LB Markon Fresh Broccoli PR 0.00 12.50 125.00" in
  let parts := Py.split (Py.strip line) in
  classifier_accepts parts = true /\
  locate_category parts = inr (Some ("PR", 9%Z)) /\
  parse_line_item line = inr None.
Proof. vm_compute. repeat split. Qed.

(** C4, as the code has it.  With [n] the number of all tokens of the
    line, prices included, the locator visits the indices [i] with
    [max 4 (n - 10) < i <= n - 4] from the largest down, and answers
    with the first token that is a key of the registry and its index;
    when no token of the window is a key the line is rejected. *)
Theorem category_locator_window (line : string) :
  let parts := Py.split (Py.strip line) in
  let n := Z.of_nat (length parts) in
  let in_window := fun i => (Z.max 4 (n - 10) < i <= n - 4)%Z in
  match locate_category parts with
  | inr (Some (c, i)) =>
      in_window i /\
      nth_error parts (Z.to_nat i) = Some c /\
      registry_key c /\
      forall j t, in_window j -> (i < j)%Z ->
                  nth_error parts (Z.to_nat j) = Some t -> ~ registry_key t
  | inr None =>
      (forall j t, in_window j -> nth_error parts (Z.to_nat j) = Some t ->
                   ~ registry_key t) /\
      parse_line_item line = inr None
  | inl _ => False
  end.
Proof.
  intros parts n in_window.
  pose proof (locate_category_spec parts) as H. cbv zeta in H. fold n in H.
  pose proof (parse_line_item_cases line) as Hp. cbv zeta in Hp. fold parts in Hp.
  destruct (locate_category parts) as [e|[(c, i)|]]; [exact H|exact H|].
  split; [exact H|].
  destruct Hp as [(_ & Hnone)|(_ & [(_ & Hnone)|(c & i & Hloc & _)])];
    [exact Hnone|exact Hnone|discriminate].
Qed.

(** C4 as stated fails: counted from the end of the tokens that precede
    the prices, the window would be the indices 6 and 5 and hold no
    category code; the code finds [PR] at index 9. *)
Lemma window_anchor_counterexample :
  let line := "123456 10 10 CS 6x10 LB Markon Fresh Broccoli PR 0.00 12.50 125.00" in
  let parts := Py.split (Py.strip line) in
  category_window_before_prices parts = [6; 5]%Z /\
  scan_category parts (category_window_before_prices parts) = inr None /\
  category_window parts = [9; 8; 7; 6; 5]%Z /\
  locate_category parts = inr (Some ("PR", 9%Z)).
Proof. vm_compute. repeat split. Qed.

(** C5. The line of the specification's example. *)
Theorem broccoli_line (line : string) :
  Py.split (Py.strip line) =
    ["123456"; "10"; "10"; "CS"; "6x10"; "LB"; "Markon"; "Fresh"; "Broccoli"; "PR";
     "0.00"; "12.50"; "125.00"] ->
  parse_line_item line =
    inr (Some {| item_code := "123456";
                 quantity_ordered := 10;
                 quantity_shipped := 10;
                 unit := "CS";
                 pack_size := "6x10 LB";
                 brand := "Markon";
                 description := "Fresh Broccoli";
                 category_code := "PR";
                 category_name := "Produce";
                 invoice_value := 0%N;
                 unit_price := 1250%N;
                 extended_price := 12500%N;
                 raw_line := Py.strip line |}).
Proof.
  intros H. unfold parse_line_item. rewrite H. reflexivity.
Qed.

Lemma broccoli_line_witness :
  parse_line_item "  123456 10 10 CS 6x10 LB  Markon Fresh Broccoli PR 0.00 12.50 125.00 " =
    inr (Some {| item_code := "123456";
                 quantity_ordered := 10;
                 quantity_shipped := 10;
                 unit := "CS";
                 pack_size := "6x10 LB";
                 brand := "Markon";
                 description := "Fresh Broccoli";
                 category_code := "PR";
                 category_name := "Produce";
                 invoice_value := 0%N;
                 unit_price := 1250%N;
                 extended_price := 12500%N;
                 raw_line := "123456 10 10 CS 6x10 LB  Markon Fresh Broccoli PR 0.00 12.50 125.00" |}).
Proof.
  apply (broccoli_line
           "  123456 10 10 CS 6x10 LB  Markon Fresh Broccoli PR 0.00 12.50 125.00 ").
  reflexivity.
Defined.

(** ** Field segmenter *)

Lemma contains_char (c : ascii) (s : string) :
  Py.contains (String c EmptyString) s = true <->
  exists a b, s = (a ++ String c b)%string.
Proof.
  induction s as [|d s IH]; simpl.
  - split; [discriminate|]. intros (a & b & E). destruct a; discriminate.
  - rewrite orb_true_iff, IH. split.
    + intros [H|(a & b & ->)].
      * destruct (ascii_dec c d) as [->|]; [|discriminate].
        exists EmptyString, s. reflexivity.
      * exists (String d a), b. reflexivity.
    + intros (a & b & E). destruct a as [|a0 a]; simpl in E.
      * injection E as -> ->. left. destruct (ascii_dec c c); [|congruence].
        now destruct b.
      * injection E as -> ->. right. eauto.
Qed.

Lemma is_pack_token_like (t : string) : is_pack_token t = true <-> pack_like t.
Proof.
  unfold is_pack_token, pack_like.
  now rewrite orb_true_iff, contains_char, mem_true_iff.
Qed.

Lemma is_pack_token_unlike (t : string) : is_pack_token t = false <-> ~ pack_like t.
Proof.
  rewrite <- is_pack_token_like. destruct (is_pack_token t); split; congruence.
Qed.

Lemma pack_fold_spec (l : list string) :
  forall k acc,
  let r := fold_left
             (fun pack_end ip => if is_pack_token (snd ip) then fst ip + 1 else pack_end)
             (combine (seq k (length l)) l) acc in
  (Forall (fun t => ~ pack_like t) l /\ r = acc) \/
  (exists i t, r = k + S i /\ nth_error l i = Some t /\ pack_like t /\
               Forall (fun t => ~ pack_like t) (skipn (S i) l)).
Proof.
  induction l as [|x l IH]; intros k acc; simpl.
  - left. split; [constructor|reflexivity].
  - destruct (IH (S k) (if is_pack_token x then k + 1 else acc))
      as [(Hall & Hr)|(i & t & Hr & Hnth & Hlike & Hrest)].
    + destruct (is_pack_token x) eqn:Hx.
      * right. exists 0, x. split; [lia|]. split; [reflexivity|].
        split; [now apply is_pack_token_like|exact Hall].
      * left. split; [|exact Hr]. constructor; [now apply is_pack_token_unlike|exact Hall].
    + right. exists (S i), t. split; [lia|]. auto.
Qed.

Lemma pack_end_of_boundary (middle : list string) :
  pack_boundary middle (pack_end_of middle).
Proof.
  unfold pack_end_of, Py.enumerate, pack_boundary.
  destruct (pack_fold_spec middle 0 0) as [(Hall & ->)|(i & t & -> & Hnth & Hlike & Hrest)].
  - split; [exact Hall|now left].
  - split; [exact Hrest|]. right. exists i, t. auto.
Qed.

Lemma looks_like_brand_iff (t : string) :
  looks_like_brand t = true <-> known_brand t \/ String.length t < 8.
Proof.
  unfold looks_like_brand, known_brand.
  now rewrite orb_true_iff, mem_true_iff, Nat.ltb_lt.
Qed.

(** The segmenter on any middle region. *)
Lemma segment_fields_spec (middle : list string) :
  exists boundary,
    pack_boundary middle boundary /\
    fst (fst (segment_fields middle)) = Py.join " " (firstn boundary middle) /\
    match skipn boundary middle with
    | [] => snd (fst (segment_fields middle)) = "" /\ snd (segment_fields middle) = ""
    | first :: rest =>
        ((known_brand first \/ String.length first < 8) /\
         snd (fst (segment_fields middle)) = first /\
         snd (segment_fields middle) = Py.join " " rest) \/
        (~ (known_brand first \/ String.length first < 8) /\
         snd (fst (segment_fields middle)) = "" /\
         snd (segment_fields middle) = Py.join " " (first :: rest))
    end.
Proof.
  exists (pack_end_of middle). split; [apply pack_end_of_boundary|].
  unfold segment_fields, Py.slice_to, Py.slice_from.
  destruct middle as [|m0 ms] eqn:E.
  - split; [reflexivity|]. simpl. split; reflexivity.
  - rewrite <- E. clear E.
    destruct (skipn (pack_end_of middle) middle) as [|first rest].
    + simpl. repeat split.
    + destruct (looks_like_brand first) eqn:Hb.
      * simpl. split; [reflexivity|]. left.
        split; [now apply looks_like_brand_iff|]. split; reflexivity.
      * simpl. split; [reflexivity|]. right. split; [|split; reflexivity].
        rewrite <- looks_like_brand_iff. congruence.
Qed.

(** C6. In an item the parser returns, [pack_size], [brand] and
    [description] come from the tokens [middle] strictly between index 3
    and the index of the category code: [pack_size] joins the tokens up
    to the pack boundary; the first token after it is the brand exactly
    when it is a known brand or shorter than 8 characters, and the
    description joins what is left. *)
Theorem field_segmenter (line : string) (item : LineItem) :
  parse_line_item line = inr (Some item) ->
  let parts := Py.split (Py.strip line) in
  exists front middle back boundary,
    parts = front ++ middle ++ back /\
    length front = 4 /\
    locate_category parts =
      inr (Some (category_code item, Z.of_nat (length (front ++ middle)))) /\
    pack_boundary middle boundary /\
    pack_size item = Py.join " " (firstn boundary middle) /\
    match skipn boundary middle with
    | [] => brand item = "" /\ description item = ""
    | first :: rest =>
        ((known_brand first \/ String.length first < 8) /\
         brand item = first /\ description item = Py.join " " rest) \/
        (~ (known_brand first \/ String.length first < 8) /\
         brand item = "" /\ description item = Py.join " " (first :: rest))
    end.
Proof.
  intros Hitem parts.
  pose proof (parse_line_item_cases line) as H. cbv zeta in H. fold parts in H.
  pose proof (locate_category_spec parts) as Hloc. cbv zeta in Hloc.
  destruct H as [(_ & Hnone)|(_ & [(_ & Hnone)|(c & i & Hfound & H)])];
    [congruence|congruence|].
  destruct H as [(_ & Hnone)|
                 (qo & qs & code & u & inv & up & ex & ps & br & de &
                  _ & _ & _ & _ & Hseg & Hsome)]; [congruence|].
  rewrite Hsome in Hitem. injection Hitem as <-. simpl.
  rewrite Hfound in Hloc. destruct Hloc as (Hwin & _).
  set (idx := Z.to_nat i) in *.
  exists (firstn 4 parts), (Py.slice parts 4 idx), (skipn idx parts).
  destruct (segment_fields_spec (Py.slice parts 4 idx)) as (boundary & Hb & Hpack & Hrest).
  rewrite Hseg in Hpack, Hrest. simpl in Hpack, Hrest.
  exists boundary.
  assert (Hsplit : firstn idx parts = firstn 4 parts ++ Py.slice parts 4 idx).
  { unfold Py.slice. rewrite <- (firstn_skipn 4 (firstn idx parts)) at 1.
    f_equal. rewrite firstn_firstn. f_equal. lia. }
  split; [|split; [|split; [|split; [exact Hb|split; [exact Hpack|exact Hrest]]]]].
  - rewrite app_assoc, <- Hsplit. symmetry. apply firstn_skipn.
  - rewrite length_firstn. lia.
  - rewrite Hfound, <- Hsplit, length_firstn. do 3 f_equal. lia.
Qed.

Lemma field_segmenter_witness :
  exists front middle back boundary,
    ["123456"; "10"; "10"; "CS"; "6x10"; "LB"; "Markon"; "Fresh"; "Broccoli"; "PR";
     "0.00"; "12.50"; "125.00"] = front ++ middle ++ back /\
    length front = 4 /\
    locate_category
      ["123456"; "10"; "10"; "CS"; "6x10"; "LB"; "Markon"; "Fresh"; "Broccoli"; "PR";
       "0.00"; "12.50"; "125.00"] =
      inr (Some ("PR", Z.of_nat (length (front ++ middle)))) /\
    pack_boundary middle boundary /\
    "6x10 LB" = Py.join " " (firstn boundary middle) /\
    match skipn boundary middle with
    | [] => "Markon" = "" /\ "Fresh Broccoli" = ""
    | first :: rest =>
        ((known_brand first \/ String.length first < 8) /\
         "Markon" = first /\ "Fresh Broccoli" = Py.join " " rest) \/
        (~ (known_brand first \/ String.length first < 8) /\
         "Markon" = "" /\ "Fresh Broccoli" = Py.join " " (first :: rest))
    end.
Proof.
  exact (field_segmenter
           "123456 10 10 CS 6x10 LB Markon Fresh Broccoli PR 0.00 12.50 125.00"
           _ eq_refl).
Defined.

(** ** Ship-to location *)

Lemma getitem_nat {A : Type} (l : list A) (j : nat) (x : A) :
  nth_error l j = Some x -> Py.getitem l (Z.of_nat j) = inr x.
Proof.
  intros H.
  destruct (getitem_in_range l (Z.of_nat j)) as (y & Hy & Hn).
  - split; [lia|]. apply Nat2Z.inj_lt. apply nth_error_Some. congruence.
  - rewrite Nat2Z.id in Hn. congruence.
Qed.

Lemma look_ahead_seq (lines : list string) :
  forall k idx,
  idx + k <= length lines ->
  look_ahead lines (seq idx k) = inr (first_match (firstn k (skipn idx lines))).
Proof.
  induction k as [|k IH]; intros idx Hk; [reflexivity|].
  simpl seq. simpl look_ahead.
  destruct (nth_error lines idx) as [l|] eqn:El.
  2:{ apply nth_error_None in El. lia. }
  rewrite (getitem_nat _ _ _ El). simpl bind.
  destruct (nth_error_split lines idx El) as (l1 & l2 & -> & Hl1).
  assert (Hskip : skipn idx (l1 ++ l :: l2) = l :: l2).
  { rewrite <- Hl1, skipn_app, skipn_all, Nat.sub_diag. reflexivity. }
  rewrite Hskip. simpl.
  destruct (search_location l); [reflexivity|].
  rewrite IH by lia. do 2 f_equal.
  change (S idx) with (1 + idx). rewrite <- skipn_skipn, Hskip. reflexivity.
Qed.

Lemma look_ahead_window (lines : list string) (idx : nat) :
  idx <= length lines ->
  look_ahead lines (Py.range idx (Nat.min (idx + 5) (length lines))) =
  inr (first_match (firstn 5 (skipn idx lines))).
Proof.
  intros H. unfold Py.range. rewrite look_ahead_seq by lia. do 2 f_equal.
  destruct (Nat.le_ge_cases (idx + 5) (length lines)) as [Hle|Hge].
  - f_equal. lia.
  - replace (Nat.min (idx + 5) (length lines) - idx) with (length (skipn idx lines))
      by (rewrite length_skipn; lia).
    rewrite firstn_all. symmetry. apply firstn_all2. rewrite length_skipn. lia.
Qed.

Lemma index_first (pre post : list string) (x : string) :
  ~ In x pre -> Py.index (pre ++ x :: post) x = inr (length pre).
Proof.
  induction pre as [|y pre IH]; intros Hx; simpl.
  - now rewrite String.eqb_refl.
  - destruct (String.eqb_spec y x) as [->|_].
    + exfalso. apply Hx. now left.
    + rewrite IH; [reflexivity|]. intros Hin. apply Hx. now right.
Qed.

Lemma ship_to_loop_no_anchor (lines todo : list string) (location : option string) :
  Forall (fun l => Py.contains "Ship To:" l = false) todo ->
  ship_to_loop lines location todo = inr location.
Proof.
  induction 1 as [|l todo Hl _ IH]; [reflexivity|].
  simpl. unfold ship_to_step. rewrite Hl. exact IH.
Qed.

Lemma ship_to_loop_app (lines a b : list string) (location : option string) :
  ship_to_loop lines location (a ++ b) =
  bind (ship_to_loop lines location a) (fun location' => ship_to_loop lines location' b).
Proof.
  revert location. induction a as [|l a IH]; intros location; [reflexivity|].
  simpl. destruct (ship_to_step lines location l); [reflexivity|]. simpl. apply IH.
Qed.




(** ** Product catalog *)

Lemma last_price_snoc (history : list DbManager.price_point) (point : DbManager.price_point) :
  last_price (history ++ [point]) = Some (DbManager.point_price point).
Proof.
  unfold last_price. rewrite map_app. simpl. now rewrite last_last.
Qed.

Lemma price_differs_iff (history : list DbManager.price_point) (p : price) :
  DbManager.price_differs history p = false <-> last_price history = Some p.
Proof.
  unfold DbManager.price_differs, last_price.
  destruct (last (map Some history) None) as [point|].
  - rewrite negb_false_iff, N.eqb_eq. split; congruence.
  - split; discriminate.
Qed.

Lemma find_map_same {A : Type} (test : A -> bool) (f : A -> A) (l : list A) :
  (forall x, test (f x) = test x) ->
  find test (map f l) = option_map f (find test l).
Proof.
  intros H. induction l as [|x l IH]; [reflexivity|].
  simpl. rewrite H. destruct (test x); [reflexivity|exact IH].
Qed.

Lemma find_app_none {A : Type} (test : A -> bool) (l : list A) (x : A) :
  find test l = None -> test x = true -> find test (l ++ [x]) = Some x.
Proof.
  intros Hl Hx. induction l as [|y l IH]; simpl in *.
  - now rewrite Hx.
  - destruct (test y); [discriminate|]. now apply IH.
Qed.

Lemma update_row_code (p : price) (history : list DbManager.price_point)
    (today : string) (count product_id : Z) (row : DbManager.product) :
  DbManager.gfs_item_code (DbManager.update_row p history today count product_id row) =
  DbManager.gfs_item_code row.
Proof. unfold DbManager.update_row. now destruct (Z.eqb _ _). Qed.

Lemma update_row_kept (p : price) (history : list DbManager.price_point)
    (today : string) (count product_id : Z) (row : DbManager.product) :
  kept_columns (DbManager.update_row p history today count product_id row) =
  kept_columns row.
Proof. unfold DbManager.update_row. now destruct (Z.eqb _ _). Qed.

(** A call for an item code that the catalog holds: the record found by
    that code afterwards. *)
Lemma upsert_product_existing (conn : DbManager.table) (today : string)
    (item : LineItem) (row : DbManager.product) :
  DbManager.get_product_by_code conn (item_code item) = Some row ->
  let history' :=
    if DbManager.price_differs (DbManager.price_history row) (unit_price item)
    then DbManager.price_history row ++
         [ {| DbManager.point_date := today; DbManager.point_price := unit_price item |} ]
    else DbManager.price_history row in
  let count' := (DbManager.order_count row + 1)%Z in
  DbManager.upsert_product today conn item =
    (map (DbManager.update_row (unit_price item) history' today count' (DbManager.id row)) conn,
     DbManager.id row) /\
  DbManager.get_product_by_code (fst (DbManager.upsert_product today conn item))
                                (item_code item) =
    Some (DbManager.update_row (unit_price item) history' today count' (DbManager.id row) row) /\
  DbManager.update_row (unit_price item) history' today count' (DbManager.id row) row =
    {| DbManager.id := DbManager.id row;
       DbManager.gfs_item_code := DbManager.gfs_item_code row;
       DbManager.description := DbManager.description row;
       DbManager.brand := DbManager.brand row;
       DbManager.pack_size := DbManager.pack_size row;
       DbManager.category_code := DbManager.category_code row;
       DbManager.category_name := DbManager.category_name row;
       DbManager.unit_price := unit_price item;
       DbManager.price_history := history';
       DbManager.first_seen := DbManager.first_seen row;
       DbManager.last_seen := today;
       DbManager.order_count := count' |}.
Proof.
  intros Hrow history' count'.
  unfold DbManager.get_product_by_code in *.
  assert (Hup : DbManager.upsert_product today conn item =
    (map (DbManager.update_row (unit_price item) history' today count' (DbManager.id row)) conn,
     DbManager.id row)).
  { unfold DbManager.upsert_product. rewrite Hrow. reflexivity. }
  split; [exact Hup|]. split.
  - rewrite Hup. simpl fst. unfold DbManager.select_by_code in *.
    rewrite find_map_same.
    + now rewrite Hrow.
    + intros x. now rewrite update_row_code.
  - unfold DbManager.update_row. now rewrite Z.eqb_refl.
Qed.

(** After any call the catalog holds the item code, and the last price
    recorded for it is the price of the call. *)
Lemma upsert_product_records (conn : DbManager.table) (today : string) (item : LineItem) :
  exists row,
    DbManager.get_product_by_code (fst (DbManager.upsert_product today conn item))
                                  (item_code item) = Some row /\
    DbManager.id row = snd (DbManager.upsert_product today conn item) /\
    last_price (DbManager.price_history row) = Some (unit_price item).
Proof.
  destruct (DbManager.get_product_by_code conn (item_code item)) as [old|] eqn:E.
  - destruct (upsert_product_existing conn today item old E) as (Hup & Hget & Hrow).
    eexists. split; [exact Hget|]. rewrite Hrow, Hup. simpl. split; [reflexivity|].
    destruct (DbManager.price_differs _ _) eqn:Hd.
    + apply last_price_snoc.
    + now apply price_differs_iff.
  - unfold DbManager.get_product_by_code in *.
    unfold DbManager.upsert_product. rewrite E. simpl fst. simpl snd.
    eexists. split; [|split].
    + unfold DbManager.select_by_code in *. apply find_app_none; [exact E|].
      simpl. apply String.eqb_refl.
    + reflexivity.
    + reflexivity.
Qed.

(** C8. Two calls in a row for one item code: the second finds the
    record of the first, adds no row, returns the same product id and
    adds one to [order_count]; with the same unit price it leaves
    [price_history] as it is, with another unit price it appends exactly
    one entry, dated with the day of the call. *)
Theorem upsert_product_idempotent (conn : DbManager.table) (today1 today2 : string)
    (item1 item2 : LineItem) :
  item_code item2 = item_code item1 ->
  let first := DbManager.upsert_product today1 conn item1 in
  let second := DbManager.upsert_product today2 (fst first) item2 in
  exists row1 row2,
    DbManager.get_product_by_code (fst first) (item_code item1) = Some row1 /\
    DbManager.get_product_by_code (fst second) (item_code item1) = Some row2 /\
    snd second = snd first /\
    map DbManager.gfs_item_code (fst second) = map DbManager.gfs_item_code (fst first) /\
    DbManager.order_count row2 = (DbManager.order_count row1 + 1)%Z /\
    last_price (DbManager.price_history row1) = Some (unit_price item1) /\
    (unit_price item2 = unit_price item1 ->
     DbManager.price_history row2 = DbManager.price_history row1) /\
    (unit_price item2 <> unit_price item1 ->
     DbManager.price_history row2 =
       DbManager.price_history row1 ++
       [ {| DbManager.point_date := today2;
            DbManager.point_price := unit_price item2 |} ]).
Proof.
  intros Hcode first second.
  destruct (upsert_product_records conn today1 item1) as (row1 & Hget1 & Hid1 & Hlast1).
  fold first in Hget1, Hid1.
  assert (Hget1' : DbManager.get_product_by_code (fst first) (item_code item2) = Some row1)
    by now rewrite Hcode.
  destruct (upsert_product_existing (fst first) today2 item2 row1 Hget1')
    as (Hup & Hget2 & Hrow2).
  fold second in Hget2. rewrite Hcode in Hget2.
  exists row1. eexists. split; [exact Hget1|]. split; [exact Hget2|].
  rewrite Hrow2. simpl. unfold second. rewrite Hup. simpl.
  split; [now symmetry|]. split.
  { rewrite map_map. apply map_ext. intros x. apply update_row_code. }
  split; [reflexivity|]. split; [exact Hlast1|]. split.
  - intros Hsame. rewrite Hsame.
    apply price_differs_iff in Hlast1. now rewrite Hlast1.
  - intros Hdiff.
    destruct (DbManager.price_differs (DbManager.price_history row1) (unit_price item2))
      eqn:Hd; [reflexivity|].
    apply price_differs_iff in Hd. congruence.
Qed.

Lemma upsert_product_idempotent_witness :
  let first := DbManager.upsert_product "2024-03-01" [] (sample_item "Fresh Broccoli" 1250%N) in
  let second := DbManager.upsert_product "2024-03-08" (fst first)
                                         (sample_item "Broccoli Crowns" 1250%N) in
  exists row1 row2,
    DbManager.get_product_by_code (fst first) "123456" = Some row1 /\
    DbManager.get_product_by_code (fst second) "123456" = Some row2 /\
    snd second = snd first /\
    map DbManager.gfs_item_code (fst second) = map DbManager.gfs_item_code (fst first) /\
    DbManager.order_count row2 = (DbManager.order_count row1 + 1)%Z /\
    last_price (DbManager.price_history row1) = Some 1250%N /\
    (1250%N = 1250%N ->
     DbManager.price_history row2 = DbManager.price_history row1) /\
    (1250%N <> 1250%N ->
     DbManager.price_history row2 =
       DbManager.price_history row1 ++
       [ {| DbManager.point_date := "2024-03-08"; DbManager.point_price := 1250%N |} ]).
Proof.
  exact (upsert_product_idempotent [] "2024-03-01" "2024-03-08"
           (sample_item "Fresh Broccoli" 1250%N) (sample_item "Broccoli Crowns" 1250%N)
           eq_refl).
Defined.

(** C10. A call for an item code that the catalog holds changes, in the
    record of that code, only [unit_price], [price_history], [last_seen]
    and [order_count]: the id, the item code, description, brand, pack
    size, category code, category name and [first_seen] of every row
    stay as they are, whatever the call supplies, and a row with another
    id does not change at all. *)
Theorem upsert_product_frame (conn : DbManager.table) (today : string)
    (item : LineItem) (row : DbManager.product) :
  DbManager.get_product_by_code conn (item_code item) = Some row ->
  let conn' := fst (DbManager.upsert_product today conn item) in
  map kept_columns conn' = map kept_columns conn /\
  (exists row',
     DbManager.get_product_by_code conn' (item_code item) = Some row' /\
     kept_columns row' = kept_columns row /\
     DbManager.unit_price row' = unit_price item /\
     DbManager.last_seen row' = today /\
     DbManager.order_count row' = (DbManager.order_count row + 1)%Z) /\
  (forall n other,
     nth_error conn n = Some other -> DbManager.id other <> DbManager.id row ->
     nth_error conn' n = Some other).
Proof.
  intros Hrow conn'.
  destruct (upsert_product_existing conn today item row Hrow) as (Hup & Hget & Hnew).
  fold conn' in Hget. unfold conn'. rewrite Hup. simpl fst. split; [|split].
  - rewrite map_map. apply map_ext. intros x. apply update_row_kept.
  - eexists. split; [unfold conn' in Hget; rewrite Hup in Hget; exact Hget|].
    rewrite Hnew. simpl. repeat split.
  - intros n other Hn Hid. rewrite nth_error_map, Hn. simpl. f_equal.
    unfold DbManager.update_row.
    destruct (Z.eqb_spec (DbManager.id other) (DbManager.id row)); [contradiction|reflexivity].
Qed.

Lemma upsert_product_frame_witness :
  let conn' := fst (DbManager.upsert_product "2024-03-08" sample_catalog
                      (sample_item "Broccoli Crowns" 1375%N)) in
  map kept_columns conn' = map kept_columns sample_catalog /\
  (exists row',
     DbManager.get_product_by_code conn' "123456" = Some row' /\
     kept_columns row' = (2%Z, "123456", "Fresh Broccoli", "Markon", "6x10 LB", "PR",
                          "Produce", "2024-03-01") /\
     DbManager.unit_price row' = 1375%N /\
     DbManager.last_seen row' = "2024-03-08" /\
     DbManager.order_count row' = 2%Z) /\
  (forall n other,
     nth_error sample_catalog n = Some other -> DbManager.id other <> 2%Z ->
     nth_error conn' n = Some other).
Proof.
  exact (upsert_product_frame sample_catalog "2024-03-08"
           (sample_item "Broccoli Crowns" 1375%N) _ eq_refl).
Defined.

(** ** Batch loop *)

Section BatchProperties.

Context {C : Collaborators}.

Lemma store_items_no_file_error (todo : list LineItem) :
  forall db invoice_id,
  Forall (fun o => is_file_error o = false) (snd (store_items db invoice_id todo)).
Proof.
  induction todo as [|item todo IH]; intros db invoice_id; simpl; [constructor|].
  destruct (upsert_product db item) as [e|(db1, product_id)].
  - specialize (IH db invoice_id). destruct (store_items db invoice_id todo).
    simpl in *. constructor; [reflexivity|exact IH].
  - destruct (add_invoice_item db1 invoice_id product_id item) as [e|db2].
    + specialize (IH db1 invoice_id). destruct (store_items db1 invoice_id todo).
      simpl in *. constructor; [reflexivity|exact IH].
    + apply IH.
Qed.

Lemma store_items_app (items1 items2 : list LineItem) :
  forall db invoice_id,
  store_items db invoice_id (items1 ++ items2) =
  (fst (store_items (fst (store_items db invoice_id items1)) invoice_id items2),
   snd (store_items db invoice_id items1) ++
   snd (store_items (fst (store_items db invoice_id items1)) invoice_id items2)).
Proof.
  induction items1 as [|item items1 IH]; intros db invoice_id; simpl.
  - now destruct (store_items db invoice_id items2).
  - destruct (upsert_product db item) as [e|(db1, product_id)].
    + rewrite IH. destruct (store_items db invoice_id items1). reflexivity.
    + destruct (add_invoice_item db1 invoice_id product_id item) as [e|db2].
      * rewrite IH. destruct (store_items db1 invoice_id items1). reflexivity.
      * apply IH.
Qed.

(** One turn of the loop over the items, by what the two methods
    return. *)
Lemma store_items_step (item : LineItem) (todo : list LineItem)
    (db : database) (invoice_id : Z) :
  (item_raises db invoice_id item = false /\
   store_items db invoice_id (item :: todo) =
   store_items (after_item db invoice_id item) invoice_id todo) \/
  (exists e,
     item_raises db invoice_id item = true /\
     store_items db invoice_id (item :: todo) =
     (fst (store_items (after_item db invoice_id item) invoice_id todo),
      ItemError (item_code item) e ::
      snd (store_items (after_item db invoice_id item) invoice_id todo))).
Proof.
  unfold item_raises, after_item. simpl.
  destruct (upsert_product db item) as [e|(db1, product_id)].
  - right. exists e. split; [reflexivity|].
    now destruct (store_items db invoice_id todo).
  - destruct (add_invoice_item db1 invoice_id product_id item) as [e|db2].
    + right. exists e. split; [reflexivity|].
      now destruct (store_items db1 invoice_id todo).
    + left. split; reflexivity.
Qed.

(** The catalog the loop over the items leaves is the one the methods
    left, item after item. *)
Lemma store_items_catalog (todo : list LineItem) :
  forall db invoice_id,
  fst (store_items db invoice_id todo) = after_items db invoice_id todo.
Proof.
  induction todo as [|item todo IH]; intros db invoice_id; [reflexivity|].
  unfold after_items. cbn [fold_left]. fold (after_items (after_item db invoice_id item)
                                                        invoice_id todo).
  rewrite <- IH.
  destruct (store_items_step item todo db invoice_id) as [(_ & ->)|(e & _ & ->)];
    reflexivity.
Qed.

(** An item that is stored prints nothing, and the loop goes on with
    the next item on the catalog that holds it. *)
Lemma store_items_success (items1 items2 : list LineItem) (item : LineItem)
    (db : database) (invoice_id : Z) :
  let db1 := after_items db invoice_id items1 in
  item_raises db1 invoice_id item = false ->
  store_items db invoice_id (items1 ++ item :: items2) =
  (after_items (after_item db1 invoice_id item) invoice_id items2,
   snd (store_items db invoice_id items1) ++
   snd (store_items (after_item db1 invoice_id item) invoice_id items2)).
Proof.
  intros db1 Hraise. rewrite store_items_app, (store_items_catalog items1). fold db1.
  destruct (store_items_step item items2 db1 invoice_id) as [(_ & ->)|(e & He & _)];
    [|congruence].
  now rewrite store_items_catalog.
Qed.

(** A failure to store one item is printed and the loop goes on with
    the next item: the items after it are stored. *)
Lemma store_items_failure (items1 items2 : list LineItem) (item : LineItem)
    (db : database) (invoice_id : Z) :
  let db1 := after_items db invoice_id items1 in
  item_raises db1 invoice_id item = true ->
  exists e,
    store_items db invoice_id (items1 ++ item :: items2) =
    (after_items (after_item db1 invoice_id item) invoice_id items2,
     snd (store_items db invoice_id items1) ++
     ItemError (item_code item) e ::
     snd (store_items (after_item db1 invoice_id item) invoice_id items2)).
Proof.
  intros db1 Hraise. rewrite store_items_app, (store_items_catalog items1). fold db1.
  destruct (store_items_step item items2 db1 invoice_id) as [(He & _)|(e & _ & ->)];
    [congruence|].
  exists e. now rewrite store_items_catalog.
Qed.

Lemma report_lines_no_file_error (result : Invoice) :
  Forall (fun o => is_file_error o = false) (report_lines result).
Proof.
  unfold report_lines. destruct (info_nonempty (invoice_info result)); repeat constructor.
Qed.

Lemma entry_failed_false (entry : list output) :
  Forall (fun o => is_file_error o = false) entry -> entry_failed entry = false.
Proof.
  unfold entry_failed. induction 1 as [|o entry Ho _ IH]; [reflexivity|].
  simpl. now rewrite Ho, IH.
Qed.

Lemma entry_failed_last (body : list output) (e : failure) :
  entry_failed (body ++ [FileError e]) = true.
Proof.
  unfold entry_failed. rewrite existsb_app. simpl. apply orb_true_r.
Qed.

(** A file whose processing raises: nothing is stored, and the entry
    ends with the one line of the outer [except]. *)
Lemma process_file_raises (db : database) (pdf : pdf_path) :
  file_raises db pdf = true ->
  exists body e,
    process_file db pdf = (db, Processing (path_name pdf) :: body ++ [FileError e]) /\
    Forall (fun o => is_file_error o = false) body.
Proof.
  unfold file_raises, process_file. intros H.
  destruct (parse_invoice pdf) as [e|result].
  - exists [], e. split; [reflexivity|constructor].
  - destruct (add_invoice db (invoice_info result)) as [e|(db1, invoice_id)]; [|discriminate].
    exists (report_lines result), e. split; [reflexivity|apply report_lines_no_file_error].
Qed.

(** A file whose processing does not raise: the entry reports its own
    result and the items that could not be stored, whatever their
    number. *)
Lemma process_file_succeeds (db : database) (pdf : pdf_path) :
  file_raises db pdf = false ->
  exists result db1 invoice_id,
    parse_invoice pdf = inr result /\
    add_invoice db (invoice_info result) = inr (db1, invoice_id) /\
    process_file db pdf =
      (fst (store_items db1 invoice_id (items result)),
       Processing (path_name pdf) :: report_lines result ++
       snd (store_items db1 invoice_id (items result))) /\
    entry_failed (snd (process_file db pdf)) = false.
Proof.
  unfold file_raises, process_file. intros H.
  destruct (parse_invoice pdf) as [e|result]; [discriminate|].
  destruct (add_invoice db (invoice_info result)) as [e|(db1, invoice_id)] eqn:Eadd;
    [discriminate|].
  exists result, db1, invoice_id. split; [reflexivity|]. split; [exact Eadd|].
  pose proof (store_items_no_file_error (items result) db1 invoice_id) as Hst.
  destruct (store_items db1 invoice_id (items result)) as (db2, errors). simpl in *.
  split; [reflexivity|].
  apply (entry_failed_false (Processing (path_name pdf) :: report_lines result ++ errors)).
  constructor; [reflexivity|].
  apply Forall_app. split; [apply report_lines_no_file_error|exact Hst].
Qed.

(** The catalog one turn of the loop over the files leaves. *)
Lemma process_file_catalog (db : database) (pdf : pdf_path) :
  fst (process_file db pdf) = after_file db pdf.
Proof.
  unfold process_file, after_file.
  destruct (parse_invoice pdf) as [e|result]; [reflexivity|].
  destruct (add_invoice db (invoice_info result)) as [e|(db1, invoice_id)]; [reflexivity|].
  rewrite <- store_items_catalog.
  now destruct (store_items db1 invoice_id (items result)).
Qed.

Lemma process_files_catalog (files : list pdf_path) :
  forall db, fst (process_files db files) = fold_left after_file files db.
Proof.
  induction files as [|pdf files IH]; intros db; [reflexivity|].
  cbn [process_files fold_left]. rewrite <- IH, <- process_file_catalog.
  destruct (process_file db pdf) as (db1, entry). cbn [fst].
  now destruct (process_files db1 files).
Qed.

Lemma process_files_app (files1 files2 : list pdf_path) :
  forall db,
  process_files db (files1 ++ files2) =
  (fst (process_files (fst (process_files db files1)) files2),
   snd (process_files db files1) ++
   snd (process_files (fst (process_files db files1)) files2)).
Proof.
  induction files1 as [|pdf files1 IH]; intros db; simpl.
  - now destruct (process_files db files2).
  - destruct (process_file db pdf) as (db1, entry).
    rewrite IH. destruct (process_files db1 files1) as (db2, entries). reflexivity.
Qed.

Lemma process_files_length (files : list pdf_path) :
  forall db, length (snd (process_files db files)) = length files.
Proof.
  induction files as [|pdf files IH]; intros db; simpl; [reflexivity|].
  destruct (process_file db pdf) as (db1, entry).
  specialize (IH db1). destruct (process_files db1 files). simpl in *. now rewrite IH.
Qed.

Lemma raising_files_app (files1 files2 : list pdf_path) :
  forall db,
  raising_files db (files1 ++ files2) =
  raising_files db files1 ++ raising_files (fst (process_files db files1)) files2.
Proof.
  induction files1 as [|pdf files1 IH]; intros db; simpl; [reflexivity|].
  rewrite IH. destruct (process_file db pdf) as (db1, entry). simpl.
  now destruct (process_files db1 files1).
Qed.

Lemma raising_files_length (files : list pdf_path) :
  forall db, length (raising_files db files) = length files.
Proof.
  induction files as [|pdf files IH]; intros db; simpl; [reflexivity|]. now rewrite IH.
Qed.

Lemma process_files_none_raise (files : list pdf_path) :
  forall db,
  raising_files db files = repeat false (length files) ->
  Forall (fun entry => entry_failed entry = false) (snd (process_files db files)).
Proof.
  induction files as [|pdf files IH]; intros db H; simpl in *; [constructor|].
  injection H as Hpdf Hrest.
  destruct (process_file_succeeds db pdf Hpdf) as (_ & _ & _ & _ & _ & _ & Hentry).
  destruct (process_file db pdf) as (db1, entry). simpl in *.
  specialize (IH db1 Hrest). destruct (process_files db1 files). simpl in *.
  constructor; assumption.
Qed.

End BatchProperties.

Lemma app_same_length {A : Type} (l1 l2 r1 r2 : list A) :
  length l1 = length l2 -> l1 ++ r1 = l2 ++ r2 -> l1 = l2 /\ r1 = r2.
Proof.
  revert l2. induction l1 as [|x l1 IH]; intros [|y l2] Hlen H; try discriminate.
  - now split.
  - simpl in *. injection H as -> H. injection Hlen as Hlen.
    destruct (IH l2 Hlen H) as (-> & ->). now split.
Qed.

Lemma filter_none {A : Type} (test : A -> bool) (l : list A) :
  Forall (fun x => test x = false) l -> filter test l = [].
Proof.
  induction 1 as [|x l Hx _ IH]; [reflexivity|]. simpl. now rewrite Hx.
Qed.

Lemma filter_all {A : Type} (test : A -> bool) (l : list A) :
  Forall (fun x => test x = false) l -> filter (fun x => negb (test x)) l = l.
Proof.
  induction 1 as [|x l Hx _ IH]; [reflexivity|]. simpl. now rewrite Hx, IH.
Qed.

Section BatchIsolation.

Context {C : Collaborators}.


End BatchIsolation.



(** * Properties of the rest of the scripts *)

(** ** Strings *)

Lemma append_nil_r (s : string) : (s ++ EmptyString)%string = s.
Proof. induction s as [|c s IH]; simpl; [reflexivity|now rewrite IH]. Qed.

Lemma append_assoc (a b c : string) : ((a ++ b) ++ c)%string = (a ++ (b ++ c))%string.
Proof. induction a as [|x a IH]; simpl; [reflexivity|now rewrite IH]. Qed.

Lemma append_nonempty (a : string) (c : ascii) (b : string) :
  (a ++ String c b)%string <> EmptyString.
Proof. destruct a; discriminate. Qed.

(** ** Tokenizer *)

Lemma split_from_token (t : string) :
  spaceless t ->
  forall cur rest,
  Py.split_from cur (t ++ rest)%string = Py.split_from (cur ++ t)%string rest.
Proof.
  unfold spaceless. induction t as [|c t IH]; intros Ht cur rest; simpl.
  - now rewrite append_nil_r.
  - inversion Ht as [|? ? Hc Ht']; subst. rewrite Hc.
    rewrite IH by exact Ht'. now rewrite append_assoc.
Qed.

Lemma split_from_nonempty (s : string) :
  forall cur, Forall (fun t => t <> EmptyString) (Py.split_from cur s).
Proof.
  induction s as [|c s IH]; intros cur; simpl.
  - destruct cur; [constructor|]. constructor; [discriminate|constructor].
  - destruct (Py.isspace c).
    + destruct cur; [apply IH|]. constructor; [discriminate|apply IH].
    + apply IH.
Qed.

Lemma split_tokens (s : string) : Forall token (Py.split s).
Proof.
  pose proof (split_from_nonempty s EmptyString) as H1.
  pose proof (split_spaceless s) as H2. unfold Py.split in *.
  induction H1 as [|t l Ht _ IH]; [constructor|].
  inversion H2; subst. constructor; [now split|auto].
Qed.

Lemma split_join_tokens (tokens : list string) :
  Forall token tokens -> Py.split (Py.join " " tokens) = tokens.
Proof.
  unfold Py.split, Py.join. induction 1 as [|t ts (Hne & Hsp) Hts IH]; [reflexivity|].
  destruct ts as [|t' ts].
  - simpl. rewrite <- (append_nil_r t) at 1.
    rewrite split_from_token by exact Hsp. simpl. now destruct t.
  - change (String.concat " " (t :: t' :: ts))
      with (t ++ String " " (String.concat " " (t' :: ts)))%string.
    remember (String.concat " " (t' :: ts)) as rest eqn:Erest.
    rewrite split_from_token by exact Hsp.
    destruct t as [|c t]; [contradiction|].
    change (Py.split_from (EmptyString ++ String c t) (String " " rest))
      with (String c t :: Py.split_from EmptyString rest).
    now rewrite IH.
Qed.

Lemma lstrip_split (s : string) :
  Py.split_from EmptyString (Py.lstrip s) = Py.split_from EmptyString s.
Proof.
  induction s as [|c s IH]; [reflexivity|].
  simpl. destruct (Py.isspace c) eqn:Hc; [exact IH|].
  simpl. now rewrite Hc.
Qed.

Lemma split_from_cons (cur : string) (c : ascii) (s : string) :
  Py.split_from cur (String c s) =
  if Py.isspace c then
    match cur with
    | EmptyString => Py.split_from EmptyString s
    | _ => cur :: Py.split_from EmptyString s
    end
  else Py.split_from (cur ++ String c EmptyString)%string s.
Proof. reflexivity. Qed.

Lemma rstrip_split (s : string) :
  forall cur, Py.split_from cur (Py.rstrip s) = Py.split_from cur s.
Proof.
  induction s as [|c s IH]; intros cur; [reflexivity|].
  simpl Py.rstrip. destruct (Py.rstrip s) as [|r0 r] eqn:Er.
  - assert (H0 : forall cur', Py.split_from cur' s = Py.split_from cur' EmptyString)
      by (intros cur'; now rewrite <- IH).
    destruct (Py.isspace c) eqn:Hc; simpl; rewrite Hc.
    + destruct cur; now rewrite H0.
    + now rewrite H0.
  - rewrite (split_from_cons cur c (String r0 r)), (split_from_cons cur c s), !IH.
    reflexivity.
Qed.

Lemma strip_split (s : string) : Py.split (Py.strip s) = Py.split s.
Proof. unfold Py.split, Py.strip. now rewrite rstrip_split, lstrip_split. Qed.

(** A text that does not begin with whitespace. *)
Lemma lstrip_head (s : string) :
  match Py.lstrip s with
  | EmptyString => True
  | String c _ => Py.isspace c = false
  end.
Proof.
  induction s as [|c s IH]; simpl; [exact I|].
  destruct (Py.isspace c) eqn:Hc; [exact IH|exact Hc].
Qed.

Lemma rstrip_idempotent (s : string) : Py.rstrip (Py.rstrip s) = Py.rstrip s.
Proof.
  induction s as [|c s IH]; [reflexivity|].
  simpl. destruct (Py.rstrip s) as [|r0 r] eqn:Er.
  - destruct (Py.isspace c) eqn:Hc; simpl; [reflexivity|now rewrite Hc].
  - simpl in *. now rewrite IH.
Qed.

Lemma lstrip_rstrip (s : string) :
  match s with
  | EmptyString => True
  | String c _ => Py.isspace c = false
  end ->
  Py.lstrip (Py.rstrip s) = Py.rstrip s.
Proof.
  destruct s as [|c s]; [reflexivity|]. intros Hc. simpl.
  destruct (Py.rstrip s); rewrite ?Hc; simpl; now rewrite Hc.
Qed.

Lemma strip_idempotent (s : string) : Py.strip (Py.strip s) = Py.strip s.
Proof.
  unfold Py.strip. rewrite (lstrip_rstrip (Py.lstrip s) (lstrip_head s)).
  apply rstrip_idempotent.
Qed.

Lemma split_from_cur (s : string) (c : ascii) (cur : string) :
  Py.split_from (String c cur) s <> [].
Proof.
  revert c cur. induction s as [|d s IH]; intros c cur; simpl; [discriminate|].
  destruct (Py.isspace d); [discriminate|apply IH].
Qed.

(** X1. The tokenizer yields non-empty tokens without whitespace, and
    none exactly when every character of the line is whitespace;
    stripping the line first does not change them. *)
Theorem tokenizer_tokens (line : string) :
  Forall token (Py.split line) /\
  Py.split (Py.strip line) = Py.split line /\
  (Py.split line = [] <->
   Forall (fun c => Py.isspace c = true) (list_ascii_of_string line)).
Proof.
  split; [apply split_tokens|]. split; [apply strip_split|].
  unfold Py.split. induction line as [|c line IH]; simpl.
  - split; [constructor|reflexivity].
  - destruct (Py.isspace c) eqn:Hc.
    + rewrite IH. split; [now constructor|]. intros H. now inversion H.
    + split.
      * intros H. exfalso. exact (split_from_cur line c EmptyString H).
      * intros H. inversion H; congruence.
Qed.

(** X2. Joining tokens with single spaces and splitting again gives the
    tokens back. *)
Theorem tokenizer_round_trip (tokens : list string) :
  Forall token tokens -> Py.split (Py.join " " tokens) = tokens.
Proof. exact (split_join_tokens tokens). Qed.

Lemma tokenizer_round_trip_witness :
  Py.split (Py.join " " ["123456"; "10"; "CS"; "6x10"]) = ["123456"; "10"; "CS"; "6x10"].
Proof.
  apply (tokenizer_round_trip ["123456"; "10"; "CS"; "6x10"]).
  repeat constructor; discriminate.
Defined.

(** ** Items *)

Lemma Forall_firstn_skipn {A : Type} (P : A -> Prop) (n : nat) (l : list A) :
  Forall P l -> Forall P (firstn n l) /\ Forall P (skipn n l).
Proof.
  intros H. rewrite <- (firstn_skipn n l) in H. now apply Forall_app in H.
Qed.

Lemma dict_get_in (d : list (string * string)) (key default : string) :
  (exists name, In (key, name) d) -> In (key, dict_get d key default) d.
Proof.
  induction d as [|(k, v) d IH]; intros (name & H); simpl in *; [contradiction|].
  destruct (String.eqb_spec k key) as [->|Hk].
  - now left.
  - right. apply IH. destruct H as [H|H]; [congruence|eauto].
Qed.

(** X3. The parser reads the tokens of the line only: two lines with the
    same tokens give the same result up to [raw_line]. *)
Theorem parse_line_item_by_tokens (line1 line2 : string) :
  Py.split line1 = Py.split line2 ->
  parsed_fields (parse_line_item line1) = parsed_fields (parse_line_item line2).
Proof.
  intros Htokens.
  assert (Hparts : Py.split (Py.strip line1) = Py.split (Py.strip line2))
    by now rewrite !strip_split.
  pose proof (parse_line_item_cases line1) as H1.
  pose proof (parse_line_item_cases line2) as H2.
  cbv zeta in H1, H2. rewrite Hparts in H1.
  set (parts := Py.split (Py.strip line2)) in *.
  destruct H1 as [(A1 & ->)|(A1 & [(B1 & ->)|(c1 & i1 & B1 & H1)])];
  destruct H2 as [(A2 & ->)|(A2 & [(B2 & ->)|(c2 & i2 & B2 & H2)])];
    try reflexivity; try congruence.
  destruct H1 as [(Q1 & ->)|
                  (qo1 & qs1 & code1 & u1 & inv1 & up1 & ex1 & ps1 & br1 & de1 &
                   Q1 & N1 & U1 & P1 & S1 & ->)];
  destruct H2 as [(Q2 & ->)|
                  (qo2 & qs2 & code2 & u2 & inv2 & up2 & ex2 & ps2 & br2 & de2 &
                   Q2 & N2 & U2 & P2 & S2 & ->)];
    try reflexivity; try congruence.
  simpl. unfold without_raw_line. simpl.
  assert (c1 = c2 /\ i1 = i2) as (-> & ->) by (split; congruence).
  assert (qo1 = qo2 /\ qs1 = qs2) as (-> & ->) by (split; congruence).
  assert (inv1 = inv2 /\ up1 = up2 /\ ex1 = ex2) as (-> & -> & ->)
    by (repeat split; congruence).
  assert (ps1 = ps2 /\ br1 = br2 /\ de1 = de2) as (-> & -> & ->)
    by (repeat split; congruence).
  assert (code1 = code2 /\ u1 = u2) as (-> & ->) by (split; congruence).
  reflexivity.
Qed.

Lemma parse_line_item_by_tokens_witness :
  parsed_fields
    (parse_line_item "123456 10 10 CS 6x10 LB Markon Fresh Broccoli PR 0.00 12.50 125.00") =
  parsed_fields
    (parse_line_item "  123456  10 10 CS 6x10 LB Markon   Fresh Broccoli PR 0.00 12.50  125.00 ").
Proof.
  apply (parse_line_item_by_tokens
           "123456 10 10 CS 6x10 LB Markon Fresh Broccoli PR 0.00 12.50 125.00"
           "  123456  10 10 CS 6x10 LB Markon   Fresh Broccoli PR 0.00 12.50  125.00 ").
  vm_compute. reflexivity.
Defined.

(** X4. The [raw_line] of an item is the stripped line, and parsing it
    again gives the same item. *)
Theorem parse_line_item_reparse (line : string) (item : LineItem) :
  parse_line_item line = inr (Some item) ->
  raw_line item = Py.strip line /\
  parse_line_item (raw_line item) = inr (Some item).
Proof.
  intros Hitem.
  assert (Hraw : raw_line item = Py.strip line).
  { pose proof (parse_line_item_cases line) as H. cbv zeta in H.
    destruct H as [(_ & Hnone)|(_ & [(_ & Hnone)|(c & i & _ & H)])];
      [congruence|congruence|].
    destruct H as [(_ & Hnone)|
                   (qo & qs & code & u & inv & up & ex & ps & br & de &
                    _ & _ & _ & _ & _ & Hsome)]; [congruence|].
    rewrite Hsome in Hitem. now injection Hitem as <-. }
  split; [exact Hraw|].
  rewrite Hraw. rewrite <- Hitem. unfold parse_line_item.
  rewrite strip_idempotent. reflexivity.
Qed.

Lemma parse_line_item_reparse_witness :
  exists item,
    parse_line_item "  123456 10 10 CS 6x10 LB  Markon Fresh Broccoli PR 0.00 12.50 125.00 " =
      inr (Some item) /\
    raw_line item = "123456 10 10 CS 6x10 LB  Markon Fresh Broccoli PR 0.00 12.50 125.00" /\
    parse_line_item (raw_line item) = inr (Some item).
Proof.
  eexists. split; [vm_compute; reflexivity|].
  split; [vm_compute; reflexivity|].
  apply (parse_line_item_reparse
           "  123456 10 10 CS 6x10 LB  Markon Fresh Broccoli PR 0.00 12.50 125.00 ").
  vm_compute. reflexivity.
Defined.

(** X5. A line of at most 8 tokens is never an item: the length test
    lets 8 tokens pass, but the scan for the category code starts above
    index 4 and ends 4 tokens before the end, which needs 9. *)
Theorem short_lines_rejected (line : string) :
  length (Py.split (Py.strip line)) <= 8 ->
  parse_line_item line = inr None.
Proof.
  intros Hlen.
  pose proof (parse_line_item_cases line) as H. cbv zeta in H.
  pose proof (locate_category_spec (Py.split (Py.strip line))) as Hloc. cbv zeta in Hloc.
  destruct H as [(_ & Hnone)|(_ & [(_ & Hnone)|(c & i & Hfound & _)])];
    [exact Hnone|exact Hnone|].
  rewrite Hfound in Hloc. destruct Hloc as (Hwin & _). lia.
Qed.

Lemma short_lines_rejected_witness :
  parse_line_item "123456 10 10 CS 6x10 PR 12.50 125.00" = inr None.
Proof.
  apply (short_lines_rejected "123456 10 10 CS 6x10 PR 12.50 125.00").
  vm_compute. apply le_n.
Defined.

(** X6. The category code of an item is a key of [CATEGORY_MAP] and its
    category name is the name registered for it: the default of
    [CATEGORY_MAP.get] is never used. *)
Theorem item_category_registered (line : string) (item : LineItem) :
  parse_line_item line = inr (Some item) ->
  In (category_code item, category_name item) CATEGORY_MAP.
Proof.
  intros Hitem.
  pose proof (parse_line_item_cases line) as H. cbv zeta in H.
  pose proof (locate_category_spec (Py.split (Py.strip line))) as Hloc. cbv zeta in Hloc.
  destruct H as [(_ & Hnone)|(_ & [(_ & Hnone)|(c & i & Hfound & H)])];
    [congruence|congruence|].
  destruct H as [(_ & Hnone)|
                 (qo & qs & code & u & inv & up & ex & ps & br & de &
                  _ & _ & _ & _ & _ & Hsome)]; [congruence|].
  rewrite Hsome in Hitem. injection Hitem as <-.
  rewrite Hfound in Hloc. destruct Hloc as (_ & _ & Hkey & _).
  change (In (c, dict_get CATEGORY_MAP c c) CATEGORY_MAP).
  exact (dict_get_in CATEGORY_MAP c c Hkey).
Qed.

Lemma item_category_registered_witness :
  In ("PR", "Produce") CATEGORY_MAP.
Proof.
  exact (item_category_registered
           "123456 10 10 CS 6x10 LB Markon Fresh Broccoli PR 0.00 12.50 125.00"
           {| item_code := "123456";
              quantity_ordered := 10;
              quantity_shipped := 10;
              unit := "CS";
              pack_size := "6x10 LB";
              brand := "Markon";
              description := "Fresh Broccoli";
              category_code := "PR";
              category_name := "Produce";
              invoice_value := 0%N;
              unit_price := 1250%N;
              extended_price := 12500%N;
              raw_line := "123456 10 10 CS 6x10 LB Markon Fresh Broccoli PR 0.00 12.50 125.00" |}
           ltac:(vm_compute; reflexivity)).
Defined.

Lemma known_brands_short (t : string) : Py.mem t KNOWN_BRANDS = true -> String.length t < 8.
Proof.
  intros H. apply mem_true_iff in H. unfold KNOWN_BRANDS in H. simpl in H.
  repeat (destruct H as [<-|H]; [simpl; lia|]). contradiction.
Qed.

(** X8. Membership in [KNOWN_BRANDS] never decides: every known brand is
    shorter than 8 characters, so a token is taken as the brand exactly
    when it is shorter than 8 characters, and the brand of an item is
    always shorter than 8 characters. *)
Theorem brand_is_short (line : string) (item : LineItem) :
  parse_line_item line = inr (Some item) ->
  String.length (brand item) < 8 /\
  forall token, looks_like_brand token = (String.length token <? 8).
Proof.
  intros Hitem.
  assert (Hlooks : forall t, looks_like_brand t = (String.length t <? 8)).
  { intros t. unfold looks_like_brand.
    destruct (Py.mem t KNOWN_BRANDS) eqn:Hm; [|reflexivity].
    apply known_brands_short in Hm. simpl. symmetry. now apply Nat.ltb_lt. }
  split; [|exact Hlooks].
  pose proof (parse_line_item_cases line) as H. cbv zeta in H.
  destruct H as [(_ & Hnone)|(_ & [(_ & Hnone)|(c & i & Hfound & H)])];
    [congruence|congruence|].
  destruct H as [(_ & Hnone)|
                 (qo & qs & code & u & inv & up & ex & ps & br & de &
                  _ & _ & _ & _ & Hseg & Hsome)]; [congruence|].
  rewrite Hsome in Hitem. injection Hitem as <-. simpl.
  destruct (segment_fields_spec (Py.slice (Py.split (Py.strip line)) 4 (Z.to_nat i)))
    as (b & _ & _ & Hrest).
  rewrite Hseg in Hrest. simpl in Hrest.
  destruct (skipn b (Py.slice (Py.split (Py.strip line)) 4 (Z.to_nat i))) as [|first rest].
  - destruct Hrest as (-> & _). simpl. lia.
  - destruct Hrest as [(Hb & -> & _)|(_ & -> & _)]; [|simpl; lia].
    apply looks_like_brand_iff in Hb. rewrite Hlooks in Hb. now apply Nat.ltb_lt.
Qed.

Lemma brand_is_short_witness :
  String.length "Markon" < 8 /\
  forall token, looks_like_brand token = (String.length token <? 8).
Proof.
  exact (brand_is_short
           "123456 10 10 CS 6x10 LB Markon Fresh Broccoli PR 0.00 12.50 125.00"
           {| item_code := "123456";
              quantity_ordered := 10;
              quantity_shipped := 10;
              unit := "CS";
              pack_size := "6x10 LB";
              brand := "Markon";
              description := "Fresh Broccoli";
              category_code := "PR";
              category_name := "Produce";
              invoice_value := 0%N;
              unit_price := 1250%N;
              extended_price := 12500%N;
              raw_line := "123456 10 10 CS 6x10 LB Markon Fresh Broccoli PR 0.00 12.50 125.00" |}
           ltac:(vm_compute; reflexivity)).
Defined.

Lemma segment_fields_tokens (middle : list string) :
  Forall token middle ->
  field_tokens (fst (fst (segment_fields middle))) ++
  field_tokens (snd (fst (segment_fields middle))) ++
  field_tokens (snd (segment_fields middle)) = middle.
Proof.
  intros Hmid. unfold field_tokens.
  destruct (segment_fields_spec middle) as (b & _ & Hpack & Hrest).
  destruct (Forall_firstn_skipn token b middle Hmid) as (Hfirst & Hskip).
  rewrite Hpack, (split_join_tokens _ Hfirst).
  rewrite <- (firstn_skipn b middle) at 4. f_equal.
  destruct (skipn b middle) as [|first rest].
  - destruct Hrest as (-> & ->). reflexivity.
  - inversion Hskip as [|? ? Hf Hr]; subst.
    destruct Hrest as [(_ & -> & ->)|(_ & -> & ->)].
    + rewrite (split_join_tokens _ Hr).
      change first with (Py.join " " [first]) at 1.
      rewrite split_join_tokens; [reflexivity|]. constructor; [exact Hf|constructor].
    + now rewrite (split_join_tokens _ Hskip).
Qed.

Lemma skipn_nth_error {A : Type} (l : list A) (n : nat) (x : A) :
  nth_error l n = Some x -> skipn n l = x :: skipn (S n) l.
Proof.
  revert l. induction n as [|n IH]; intros [|y l] H; try discriminate.
  - now injection H as ->.
  - simpl in *. now apply IH.
Qed.

(** X7. The tokens of a line that gives an item are, in order: the item
    code (six digits), the two quantities, the unit, then exactly the
    tokens of [pack_size], [brand] and [description] (at least one, none
    lost and none added), the category code, and 3 to 8 more tokens.
    The unit is always the fourth token, never the default. *)
Theorem item_token_layout (line : string) (item : LineItem) :
  parse_line_item line = inr (Some item) ->
  exists q1 q2 back,
    Py.split (Py.strip line) =
      [item_code item; q1; q2; unit item] ++
      (field_tokens (pack_size item) ++ field_tokens (brand item) ++
       field_tokens (description item)) ++
      category_code item :: back /\
    six_digits (item_code item) /\
    Py.int q1 = inr (quantity_ordered item) /\
    Py.int q2 = inr (quantity_shipped item) /\
    1 <= length (field_tokens (pack_size item) ++ field_tokens (brand item) ++
                 field_tokens (description item)) /\
    3 <= length back <= 8.
Proof.
  intros Hitem.
  pose proof (parse_line_item_cases line) as H. cbv zeta in H.
  pose proof (locate_category_spec (Py.split (Py.strip line))) as Hloc. cbv zeta in Hloc.
  pose proof (split_tokens (Py.strip line)) as Htok.
  remember (Py.split (Py.strip line)) as parts eqn:Eparts.
  destruct H as [(_ & Hnone)|(Hacc & [(_ & Hnone)|(c & i & Hfound & H)])];
    [congruence|congruence|].
  destruct H as [(_ & Hnone)|
                 (qo & qs & code & u & inv & up & ex & ps & br & de &
                  Hq & Hn0 & Hn3 & _ & Hseg & Hsome)]; [congruence|].
  rewrite Hsome in Hitem. injection Hitem as <-.
  cbn [item_code quantity_ordered quantity_shipped unit pack_size brand description
       category_code].
  rewrite Hfound in Hloc. destruct Hloc as (Hwin & Hc & _).
  set (idx := Z.to_nat i) in *.
  destruct parts as [|p0 [|p1 [|p2 [|p3 rest4]]]]; try discriminate.
  simpl in Hn0, Hn3. injection Hn0 as ->. injection Hn3 as ->.
  set (parts := code :: p1 :: p2 :: u :: rest4) in *.
  assert (G1 : Py.getitem parts 1 = inr p1) by (apply (getitem_nat parts 1); reflexivity).
  assert (G2 : Py.getitem parts 2 = inr p2) by (apply (getitem_nat parts 2); reflexivity).
  unfold quantities in Hq. rewrite G1, G2 in Hq. cbv beta iota delta [bind] in Hq.
  destruct (Py.int p1) as [e1|z1] eqn:E1; [discriminate|].
  destruct (Py.int p2) as [e2|z2] eqn:E2; [discriminate|].
  injection Hq as <- <-.
  assert (Hmid : Forall token (Py.slice parts 4 idx)).
  { unfold Py.slice.
    apply (Forall_firstn_skipn token 4 (firstn idx parts)).
    apply (Forall_firstn_skipn token idx parts). exact Htok. }
  pose proof (segment_fields_tokens _ Hmid) as Hfields.
  rewrite Hseg in Hfields. simpl fst in Hfields. simpl snd in Hfields.
  assert (Hlen : 5 <= idx /\ idx + 4 <= length parts) by (unfold idx; lia).
  assert (Hsplit : firstn idx parts = firstn 4 parts ++ Py.slice parts 4 idx).
  { unfold Py.slice. rewrite <- (firstn_skipn 4 (firstn idx parts)) at 1.
    f_equal. rewrite firstn_firstn. f_equal. lia. }
  exists p1, p2, (skipn (S idx) parts).
  split; [|split; [|split; [exact E1|split; [exact E2|split]]]].
  - rewrite Hfields, <- (skipn_nth_error parts idx c Hc).
    change [code; p1; p2; u] with (firstn 4 parts).
    rewrite app_assoc, <- Hsplit. symmetry. apply firstn_skipn.
  - unfold classifier_accepts in Hacc. apply andb_true_iff in Hacc.
    destruct Hacc as (_ & Hcode). simpl in Hcode.
    apply is_item_code_six_digits; [|exact Hcode].
    inversion Htok as [|? ? (_ & Hsp) _]. exact Hsp.
  - rewrite Hfields. unfold Py.slice. rewrite length_skipn, length_firstn. lia.
  - rewrite length_skipn. unfold idx. lia.
Qed.

Lemma item_token_layout_witness :
  exists q1 q2 back,
    Py.split (Py.strip "123456 10 10 CS 6x10 LB Markon Fresh Broccoli PR 0.00 12.50 125.00") =
      ["123456"; q1; q2; "CS"] ++
      (field_tokens "6x10 LB" ++ field_tokens "Markon" ++ field_tokens "Fresh Broccoli") ++
      "PR" :: back /\
    six_digits "123456" /\
    Py.int q1 = inr 10%Z /\
    Py.int q2 = inr 10%Z /\
    1 <= length (field_tokens "6x10 LB" ++ field_tokens "Markon" ++
                 field_tokens "Fresh Broccoli") /\
    3 <= length back <= 8.
Proof.
  exact (item_token_layout
           "123456 10 10 CS 6x10 LB Markon Fresh Broccoli PR 0.00 12.50 125.00"
           {| item_code := "123456";
              quantity_ordered := 10;
              quantity_shipped := 10;
              unit := "CS";
              pack_size := "6x10 LB";
              brand := "Markon";
              description := "Fresh Broccoli";
              category_code := "PR";
              category_name := "Produce";
              invoice_value := 0%N;
              unit_price := 1250%N;
              extended_price := 12500%N;
              raw_line := "123456 10 10 CS 6x10 LB Markon Fresh Broccoli PR 0.00 12.50 125.00" |}
           ltac:(vm_compute; reflexivity)).
Defined.

(** ** Metadata of the first page *)

Lemma search_date_unfold (s : string) :
  InvoiceDocument.search_date s =
  match InvoiceDocument.match_date_at s with
  | Some g => Some g
  | None =>
      match s with
      | EmptyString => None
      | String _ s' => InvoiceDocument.search_date s'
      end
  end.
Proof. destruct s; reflexivity. Qed.

Lemma search_number_unfold (s : string) :
  InvoiceDocument.search_number s =
  match InvoiceDocument.match_number_at s with
  | Some g => Some g
  | None =>
      match s with
      | EmptyString => None
      | String _ s' => InvoiceDocument.search_number s'
      end
  end.
Proof. destruct s; reflexivity. Qed.

Lemma contains_unfold (needle hay : string) :
  Py.contains needle hay =
  String.prefix needle hay ||
  match hay with
  | EmptyString => false
  | String _ hay' => Py.contains needle hay'
  end.
Proof. destruct hay; reflexivity. Qed.

(** The test ['Invoice Date' in line] holds whenever the pattern matches. *)
Lemma search_date_contains (s g : string) :
  InvoiceDocument.search_date s = Some g -> Py.contains "Invoice Date" s = true.
Proof.
  induction s as [|c s IH]; rewrite search_date_unfold, contains_unfold.
  - unfold InvoiceDocument.match_date_at. simpl. discriminate.
  - unfold InvoiceDocument.match_date_at.
    destruct (String.prefix "Invoice Date" (String c s)); [reflexivity|].
    intros H. rewrite (IH H). apply orb_true_r.
Qed.

(** The test ['Invoice' in line] holds whenever the pattern matches, and
    the number is not empty. *)
Lemma search_number_contains (s g : string) :
  InvoiceDocument.search_number s = Some g ->
  Py.contains "Invoice" s = true /\ exists c d, g = String c d.
Proof.
  induction s as [|c s IH]; rewrite search_number_unfold, contains_unfold.
  - unfold InvoiceDocument.match_number_at. simpl. discriminate.
  - unfold InvoiceDocument.match_number_at.
    destruct (String.prefix "Invoice" (String c s)).
    + intros H. split; [reflexivity|].
      destruct (String.length _ <? String.length _).
      * destruct (Py.span_digits _) as ([|c0 d0], r).
        -- destruct (IH H) as (_ & Hg). exact Hg.
        -- injection H as <-. eauto.
      * destruct (IH H) as (_ & Hg). exact Hg.
    + intros H. destruct (IH H) as (Hc & Hg). rewrite Hc. split; [apply orb_true_r|exact Hg].
Qed.

Lemma strptime_raises (g : string) (e : exn) :
  InvoiceDocument.strptime_mdY g = inl e -> e = ValueError.
Proof.
  unfold InvoiceDocument.strptime_mdY.
  destruct (InvoiceDocument.date_shaped g); [|intros H; now injection H].
  match goal with |- context [if ?b then _ else _] => destruct b end;
    [discriminate|intros H; now injection H].
Qed.

Lemma number_step_spec (info : InvoiceDocument.metadata) (line : string) :
  InvoiceDocument.number_step info line =
  {| InvoiceDocument.meta_number :=
       if InvoiceDocument.has_number info then InvoiceDocument.meta_number info
       else match InvoiceDocument.search_number line with
            | Some g => Some g
            | None => InvoiceDocument.meta_number info
            end;
     InvoiceDocument.meta_date := InvoiceDocument.meta_date info;
     InvoiceDocument.meta_location := InvoiceDocument.meta_location info |}.
Proof.
  unfold InvoiceDocument.number_step.
  destruct (InvoiceDocument.has_number info).
  - rewrite andb_false_r. now destruct info.
  - rewrite andb_true_r.
    destruct (InvoiceDocument.search_number line) as [g|] eqn:Es.
    + destruct (search_number_contains _ _ Es) as (-> & _). reflexivity.
    + destruct (Py.contains "Invoice" line); now destruct info.
Qed.

Lemma date_step_spec (info : InvoiceDocument.metadata) (line : string) :
  InvoiceDocument.date_step info line =
  if bad_date line then inl ValueError
  else inr {| InvoiceDocument.meta_number := InvoiceDocument.meta_number info;
              InvoiceDocument.meta_date :=
                match line_date line with
                | Some d => Some d
                | None => InvoiceDocument.meta_date info
                end;
              InvoiceDocument.meta_location := InvoiceDocument.meta_location info |}.
Proof.
  unfold InvoiceDocument.date_step, bad_date, line_date.
  destruct (InvoiceDocument.search_date line) as [g|] eqn:Es.
  - rewrite (search_date_contains _ _ Es).
    destruct (InvoiceDocument.strptime_mdY g) as [e|d] eqn:Ep; simpl.
    + now rewrite (strptime_raises _ _ Ep).
    + reflexivity.
  - destruct (Py.contains "Invoice Date" line); now destruct info.
Qed.

Lemma index_first_position (lines : list string) (line : string) :
  In line lines ->
  Py.index lines line = inr (first_position lines line) /\
  first_position lines line < length lines.
Proof.
  induction lines as [|l lines IH]; intros Hin; [contradiction|].
  simpl. destruct (String.eqb_spec l line) as [->|Hne].
  - split; [reflexivity|lia].
  - destruct Hin as [Hin|Hin]; [congruence|].
    destruct (IH Hin) as (-> & Hlt). split; [reflexivity|lia].
Qed.

Lemma ship_to_step_spec (lines : list string) (location : option string) (line : string) :
  In line lines ->
  ship_to_step lines location line =
  inr match anchor_location lines line with
      | Some m => Some m
      | None => location
      end.
Proof.
  intros Hin. unfold ship_to_step, anchor_location.
  destruct (Py.contains "Ship To:" line); [|reflexivity].
  destruct (index_first_position lines line Hin) as (-> & Hlt).
  cbv beta iota delta [bind].
  rewrite look_ahead_window by lia.
  now destruct (first_match _).
Qed.

Lemma metadata_loop_spec (lines : list string) (todo : list string) :
  forall info,
  incl todo lines ->
  InvoiceDocument.metadata_loop lines info todo =
  if existsb bad_date todo then inl ValueError
  else inr {| InvoiceDocument.meta_number :=
                if InvoiceDocument.has_number info then InvoiceDocument.meta_number info
                else match first_some (map InvoiceDocument.search_number todo) with
                     | Some g => Some g
                     | None => InvoiceDocument.meta_number info
                     end;
              InvoiceDocument.meta_date :=
                last_some_or (InvoiceDocument.meta_date info) (map line_date todo);
              InvoiceDocument.meta_location :=
                last_some_or (InvoiceDocument.meta_location info)
                             (map (anchor_location lines) todo) |}.
Proof.
  induction todo as [|line todo IH]; intros info Hincl.
  - simpl. destruct info as [n d l]. simpl.
    destruct (InvoiceDocument.has_number _); reflexivity.
  - assert (Hin : In line lines) by (apply Hincl; now left).
    assert (Hincl' : incl todo lines) by (intros x Hx; apply Hincl; now right).
    cbn [InvoiceDocument.metadata_loop existsb map].
    rewrite date_step_spec. destruct (bad_date line); [reflexivity|].
    cbv beta iota delta [bind orb].
    unfold InvoiceDocument.location_step.
    rewrite ship_to_step_spec by exact Hin.
    cbv beta iota delta [bind ok].
    rewrite IH by exact Hincl'.
    destruct (existsb bad_date todo); [reflexivity|].
    rewrite number_step_spec. f_equal.
    unfold last_some_or. cbn [fold_left InvoiceDocument.meta_number
      InvoiceDocument.meta_date InvoiceDocument.meta_location first_some].
    unfold InvoiceDocument.has_number at 1.
    cbn [InvoiceDocument.meta_number].
    f_equal.
    destruct (InvoiceDocument.has_number info) eqn:Hhas.
    + unfold InvoiceDocument.has_number in Hhas.
      destruct (InvoiceDocument.meta_number info) as [[|c0 n0]|]; try discriminate.
      reflexivity.
    + destruct (InvoiceDocument.search_number line) as [g|] eqn:Es.
      * destruct (search_number_contains _ _ Es) as (_ & c0 & d0 & ->). reflexivity.
      * unfold InvoiceDocument.has_number in Hhas.
        destruct (InvoiceDocument.meta_number info) as [[|c0 n0]|]; try discriminate;
          reflexivity.
Qed.

(** ** Pages *)

Lemma parse_line_item_total (line : string) : exists r, parse_line_item line = inr r.
Proof.
  pose proof (parse_line_item_cases line) as H. cbv zeta in H.
  destruct H as [(_ & H)|(_ & [(_ & H)|(c & i & _ & H)])]; eauto.
  destruct H as [(_ & H)|(qo & qs & code & u & inv & up & ex & ps & br & de &
                          _ & _ & _ & _ & _ & H)]; eauto.
Qed.

Lemma items_loop_spec (todo : list string) :
  forall items,
  InvoiceDocument.items_loop items todo = inr (items ++ flat_map line_items todo).
Proof.
  induction todo as [|line todo IH]; intros items; simpl.
  - now rewrite app_nil_r.
  - unfold line_items at 1.
    destruct (parse_line_item_total line) as ([item|] & ->); simpl.
    + rewrite IH, <- app_assoc. reflexivity.
    + apply IH.
Qed.

Lemma page_items_blank : page_items (Some EmptyString) = [].
Proof. vm_compute. reflexivity. Qed.

Lemma pages_loop_later (pages : list (option string)) :
  forall n info items,
  InvoiceDocument.pages_loop (S n) pages info items =
  inr {| InvoiceDocument.parsed_info := info;
         InvoiceDocument.parsed_items := items ++ document_items pages |}.
Proof.
  induction pages as [|page pages IH]; intros n info items.
  - simpl. now rewrite app_nil_r.
  - unfold document_items. cbn [flat_map]. fold (document_items pages).
    destruct page as [[|c text]|].
    + rewrite page_items_blank. cbn [InvoiceDocument.pages_loop]. apply IH.
    + cbn [InvoiceDocument.pages_loop Nat.eqb]. cbv beta iota delta [bind ok].
      rewrite items_loop_spec, IH. unfold page_items. now rewrite app_assoc.
    + cbn [InvoiceDocument.pages_loop page_items]. apply IH.
Qed.

Lemma parse_invoice_blank_first (first : option string) (rest : list (option string)) :
  first = None \/ first = Some EmptyString ->
  InvoiceDocument.parse_invoice (first :: rest) =
  inr {| InvoiceDocument.parsed_info := InvoiceDocument.no_metadata;
         InvoiceDocument.parsed_items := document_items rest |}.
Proof.
  intros [->| ->]; unfold InvoiceDocument.parse_invoice;
    cbn [InvoiceDocument.pages_loop]; now rewrite pages_loop_later.
Qed.

Lemma parse_invoice_text_first (c : ascii) (text : string) (rest : list (option string)) :
  let lines := InvoiceDocument.split_lines (String c text) in
  InvoiceDocument.parse_invoice (Some (String c text) :: rest) =
  if existsb bad_date lines then inl ValueError
  else inr {| InvoiceDocument.parsed_info :=
                {| InvoiceDocument.meta_number :=
                     first_some (map InvoiceDocument.search_number lines);
                   InvoiceDocument.meta_date := last_some (map line_date lines);
                   InvoiceDocument.meta_location :=
                     last_some (map (anchor_location lines) lines) |};
              InvoiceDocument.parsed_items :=
                document_items (Some (String c text) :: rest) |}.
Proof.
  intros lines. unfold InvoiceDocument.parse_invoice.
  cbn [InvoiceDocument.pages_loop Nat.eqb]. fold lines.
  rewrite metadata_loop_spec by apply incl_refl.
  destruct (existsb bad_date lines); [reflexivity|].
  cbv beta iota delta [bind ok].
  rewrite items_loop_spec, pages_loop_later.
  unfold document_items. cbn [flat_map page_items app]. fold lines.
  clearbody lines. unfold last_some. cbn.
  now destruct (first_some (map InvoiceDocument.search_number lines)).
Qed.

(** X9. When the first page has text and [parse_invoice] returns, the
    invoice number comes from the first line of that page that has a
    match, the invoice date from the last one that has a match, and the
    location from the last line containing "Ship To:" whose window has
    a match. *)
Theorem first_page_metadata (text : string) (rest : list (option string))
    (r : InvoiceDocument.parsed) :
  text <> EmptyString ->
  InvoiceDocument.parse_invoice (Some text :: rest) = inr r ->
  let lines := InvoiceDocument.split_lines text in
  InvoiceDocument.meta_number (InvoiceDocument.parsed_info r) =
    first_some (map InvoiceDocument.search_number lines) /\
  InvoiceDocument.meta_date (InvoiceDocument.parsed_info r) =
    last_some (map line_date lines) /\
  InvoiceDocument.meta_location (InvoiceDocument.parsed_info r) =
    last_some (map (anchor_location lines) lines).
Proof.
  intros Htext Hr. destruct text as [|c text]; [contradiction|].
  pose proof (parse_invoice_text_first c text rest) as H. cbv zeta in H.
  rewrite Hr in H. intros lines. fold lines in H.
  destruct (existsb bad_date lines); [discriminate|].
  injection H as ->. repeat split.
Qed.

(** X10. [parse_invoice] raises only [ValueError], and exactly when the
    first page has text and one of its lines has a match of the date
    pattern that is no date of the calendar; the text of the later
    pages never makes it raise. *)
Theorem parse_invoice_raises (pages : list (option string)) (e : exn) :
  InvoiceDocument.parse_invoice pages = inl e <->
  e = ValueError /\
  exists text rest,
    pages = Some text :: rest /\
    existsb bad_date (InvoiceDocument.split_lines text) = true.
Proof.
  destruct pages as [|[[|c text]|] rest].
  - split; [discriminate|]. intros (_ & t & r & H & _). discriminate.
  - rewrite (parse_invoice_blank_first (Some EmptyString) rest) by now right.
    split; [discriminate|]. intros (_ & t & r & H & Hbad).
    injection H as <- _. vm_compute in Hbad. discriminate.
  - pose proof (parse_invoice_text_first c text rest) as H. cbv zeta in H. rewrite H.
    destruct (existsb bad_date (InvoiceDocument.split_lines (String c text))) eqn:Hbad.
    + split.
      * intros E. injection E as <-. split; [reflexivity|]. eauto.
      * intros (-> & _). reflexivity.
    + split; [discriminate|]. intros (_ & t & r & E & Hb).
      injection E as <- _. congruence.
  - rewrite (parse_invoice_blank_first None rest) by now left.
    split; [discriminate|]. intros (_ & t & r & H & _). discriminate.
Qed.

(** X11. When the first page has no text, nothing is read from the
    later pages but their items: the metadata stay empty. *)
Theorem blank_first_page (first : option string) (rest : list (option string)) :
  first = None \/ first = Some EmptyString ->
  InvoiceDocument.parse_invoice (first :: rest) =
  inr {| InvoiceDocument.parsed_info := InvoiceDocument.no_metadata;
         InvoiceDocument.parsed_items := document_items rest |}.
Proof. exact (parse_invoice_blank_first first rest). Qed.

(** X12. The items that [parse_invoice] returns are the items of the
    lines of all pages, in the order of the pages and of the lines, and
    each of them is what [parse_line_item] gives on a line of the
    document. *)
Theorem document_items_traced (pages : list (option string)) (r : InvoiceDocument.parsed) :
  InvoiceDocument.parse_invoice pages = inr r ->
  InvoiceDocument.parsed_items r = flat_map page_items pages /\
  forall item, In item (InvoiceDocument.parsed_items r) ->
    exists text line,
      In (Some text) pages /\
      In line (InvoiceDocument.split_lines text) /\
      parse_line_item line = inr (Some item).
Proof.
  intros Hr.
  assert (Hitems : InvoiceDocument.parsed_items r = document_items pages).
  { destruct pages as [|[[|c text]|] rest].
    - injection Hr as <-. reflexivity.
    - rewrite (parse_invoice_blank_first (Some EmptyString) rest) in Hr by now right.
      injection Hr as <-. unfold document_items. cbn [flat_map].
      now rewrite page_items_blank.
    - pose proof (parse_invoice_text_first c text rest) as H. cbv zeta in H.
      rewrite Hr in H. destruct (existsb bad_date _); [discriminate|].
      now injection H as ->.
    - rewrite (parse_invoice_blank_first None rest) in Hr by now left.
      injection Hr as <-. reflexivity. }
  split; [exact Hitems|]. rewrite Hitems. unfold document_items.
  intros item Hin. apply in_flat_map in Hin. destruct Hin as (page & Hpage & Hin).
  destruct page as [text|]; [|contradiction].
  unfold page_items in Hin. apply in_flat_map in Hin.
  destruct Hin as (line & Hline & Hin). exists text, line.
  split; [exact Hpage|]. split; [exact Hline|].
  unfold line_items in Hin.
  destruct (parse_line_item line) as [e|[it|]]; try contradiction.
  destruct Hin as [->|[]]. reflexivity.
Qed.

Example sample_pages_parsed :
  match InvoiceDocument.parse_invoice sample_pages with
  | inr r =>
      InvoiceDocument.parsed_info r =
        {| InvoiceDocument.meta_number := Some "9001234";
           InvoiceDocument.meta_date :=
             Some {| InvoiceDocument.cal_year := 2024;
                     InvoiceDocument.cal_month := 3;
                     InvoiceDocument.cal_day := 8 |};
           InvoiceDocument.meta_location := Some "KINAWA ELEMENTARY SCHOOL" |} /\
      map item_code (InvoiceDocument.parsed_items r) = ["123456"; "654321"]
  | inl _ => False
  end.
Proof. vm_compute. split; reflexivity. Qed.

Example bad_date_raises :
  InvoiceDocument.parse_invoice [Some sample_second_page; Some sample_first_page] =
  inl ValueError.
Proof. vm_compute. reflexivity. Qed.

Lemma first_page_metadata_witness :
  exists r,
    InvoiceDocument.parse_invoice (Some sample_first_page :: [Some sample_second_page]) =
      inr r /\
    InvoiceDocument.meta_number (InvoiceDocument.parsed_info r) =
      first_some (map InvoiceDocument.search_number
                      (InvoiceDocument.split_lines sample_first_page)) /\
    InvoiceDocument.meta_date (InvoiceDocument.parsed_info r) =
      last_some (map line_date (InvoiceDocument.split_lines sample_first_page)) /\
    InvoiceDocument.meta_location (InvoiceDocument.parsed_info r) =
      last_some (map (anchor_location (InvoiceDocument.split_lines sample_first_page))
                     (InvoiceDocument.split_lines sample_first_page)).
Proof.
  eexists. split; [vm_compute; reflexivity|].
  apply (first_page_metadata sample_first_page [Some sample_second_page]).
  - unfold sample_first_page. discriminate.
  - vm_compute. reflexivity.
Defined.

Lemma blank_first_page_witness :
  InvoiceDocument.parse_invoice [None; Some sample_first_page] =
  inr {| InvoiceDocument.parsed_info := InvoiceDocument.no_metadata;
         InvoiceDocument.parsed_items := document_items [Some sample_first_page] |}.
Proof. exact (blank_first_page None [Some sample_first_page] (or_introl eq_refl)). Defined.

Lemma document_items_traced_witness :
  exists r,
    InvoiceDocument.parse_invoice sample_pages = inr r /\
    InvoiceDocument.parsed_items r = flat_map page_items sample_pages /\
    forall item, In item (InvoiceDocument.parsed_items r) ->
      exists text line,
        In (Some text) sample_pages /\
        In line (InvoiceDocument.split_lines text) /\
        parse_line_item line = inr (Some item).
Proof.
  eexists. split; [vm_compute; reflexivity|].
  apply (document_items_traced sample_pages).
  vm_compute. reflexivity.
Defined.

(** ** Catalog: keys, coherence and counting *)

Lemma fold_max_ge (l : list Z) :
  forall a, (a <= fold_left Z.max l a)%Z /\ forall x, In x l -> (x <= fold_left Z.max l a)%Z.
Proof.
  induction l as [|y l IH]; intros a; simpl.
  - split; [lia|contradiction].
  - destruct (IH (Z.max a y)) as (Ha & Hl). split; [lia|].
    intros x [->|Hx]; [lia|auto].
Qed.

Lemma next_rowid_fresh (conn : DbManager.table) :
  ~ In (DbManager.next_rowid conn) (map DbManager.id conn).
Proof.
  unfold DbManager.next_rowid. intros Hin.
  apply (proj2 (fold_max_ge (map DbManager.id conn) 0%Z)) in Hin. lia.
Qed.

Lemma NoDup_snoc {A : Type} (l : list A) (x : A) :
  NoDup l -> ~ In x l -> NoDup (l ++ [x]).
Proof.
  intros Hl Hx. apply NoDup_app; [exact Hl|repeat constructor; auto|].
  intros a Ha [->|[]]. contradiction.
Qed.

Lemma select_none_code (conn : DbManager.table) (code : string) :
  DbManager.select_by_code conn code = None ->
  ~ In code (map DbManager.gfs_item_code conn).
Proof.
  unfold DbManager.select_by_code. intros Hnone Hin.
  apply in_map_iff in Hin. destruct Hin as (row & <- & Hrow).
  pose proof (find_none _ _ Hnone row Hrow) as H. simpl in H.
  now rewrite String.eqb_refl in H.
Qed.

Lemma upsert_product_new (conn : DbManager.table) (today : string) (item : LineItem) :
  DbManager.get_product_by_code conn (item_code item) = None ->
  DbManager.upsert_product today conn item =
  (conn ++
   [ {| DbManager.id := DbManager.next_rowid conn;
        DbManager.gfs_item_code := item_code item;
        DbManager.description := description item;
        DbManager.brand := brand item;
        DbManager.pack_size := pack_size item;
        DbManager.category_code := category_code item;
        DbManager.category_name := category_name item;
        DbManager.unit_price := unit_price item;
        DbManager.price_history :=
          [ {| DbManager.point_date := today; DbManager.point_price := unit_price item |} ];
        DbManager.first_seen := today;
        DbManager.last_seen := today;
        DbManager.order_count := 1 |} ],
   DbManager.next_rowid conn).
Proof.
  unfold DbManager.get_product_by_code, DbManager.upsert_product. now intros ->.
Qed.

Lemma update_row_id (p : price) (history : list DbManager.price_point)
    (today : string) (count product_id : Z) (row : DbManager.product) :
  DbManager.id (DbManager.update_row p history today count product_id row) =
  DbManager.id row.
Proof. unfold DbManager.update_row. now destruct (Z.eqb _ _). Qed.

Lemma upsert_keys (conn : DbManager.table) (today : string) (item : LineItem) :
  NoDup (map DbManager.id conn) ->
  NoDup (map DbManager.gfs_item_code conn) ->
  let conn' := fst (DbManager.upsert_product today conn item) in
  NoDup (map DbManager.id conn') /\ NoDup (map DbManager.gfs_item_code conn').
Proof.
  intros Hids Hcodes conn'. unfold conn'.
  destruct (DbManager.get_product_by_code conn (item_code item)) as [row|] eqn:E.
  - destruct (upsert_product_existing conn today item row E) as (-> & _). simpl fst.
    rewrite !map_map. split.
    + erewrite map_ext; [exact Hids|]. intros x. apply update_row_id.
    + erewrite map_ext; [exact Hcodes|]. intros x. apply update_row_code.
  - rewrite (upsert_product_new conn today item E). simpl fst.
    rewrite !map_app. simpl. split.
    + apply NoDup_snoc; [exact Hids|apply next_rowid_fresh].
    + apply NoDup_snoc; [exact Hcodes|now apply select_none_code].
Qed.

(** X13. [upsert_product] keeps the keys of the catalog: when no two
    rows share an id and no two rows share an item code, the same holds
    after the call. *)
Theorem upsert_product_keeps_keys (conn : DbManager.table) (today : string)
    (item : LineItem) :
  NoDup (map DbManager.id conn) ->
  NoDup (map DbManager.gfs_item_code conn) ->
  let conn' := fst (DbManager.upsert_product today conn item) in
  NoDup (map DbManager.id conn') /\ NoDup (map DbManager.gfs_item_code conn').
Proof. exact (upsert_keys conn today item). Qed.

Lemma upsert_product_keeps_keys_witness :
  let conn' := fst (DbManager.upsert_product "2024-03-08" sample_catalog
                      (sample_item "Broccoli Crowns" 1375%N)) in
  NoDup (map DbManager.id conn') /\ NoDup (map DbManager.gfs_item_code conn').
Proof.
  apply (upsert_product_keeps_keys sample_catalog "2024-03-08"
           (sample_item "Broccoli Crowns" 1375%N)).
  - simpl. repeat constructor; simpl; intuition discriminate.
  - simpl. repeat constructor; simpl; intuition discriminate.
Defined.

Lemma no_repeat_snoc (history : list DbManager.price_point) (point : DbManager.price_point) :
  no_repeat (map DbManager.point_price history) ->
  last_price history <> Some (DbManager.point_price point) ->
  no_repeat (map DbManager.point_price (history ++ [point])).
Proof.
  induction history as [|a history IH]; intros Hrep Hlast; [exact I|].
  destruct history as [|b history].
  - simpl. split; [|exact I]. intros E. apply Hlast. unfold last_price. simpl. now f_equal.
  - change (DbManager.point_price a <> DbManager.point_price b /\
            no_repeat (map DbManager.point_price ((b :: history) ++ [point]))).
    destruct Hrep as (Hab & Hrep). split; [exact Hab|].
    apply IH; [exact Hrep|]. exact Hlast.
Qed.

(** X14. [upsert_product] keeps the rows coherent: in a catalog whose
    rows all have a history that ends with the current price, that has
    at most [order_count] entries and no two equal prices in a row, and
    an [order_count] of at least 1, the rows are so after the call. *)
Theorem upsert_product_keeps_rows (conn : DbManager.table) (today : string)
    (item : LineItem) :
  Forall row_coherent conn ->
  Forall row_coherent (fst (DbManager.upsert_product today conn item)).
Proof.
  intros Hrows.
  destruct (DbManager.get_product_by_code conn (item_code item)) as [row|] eqn:E.
  - destruct (upsert_product_existing conn today item row E) as (-> & _). simpl fst.
    assert (Hrow : row_coherent row).
    { unfold DbManager.get_product_by_code, DbManager.select_by_code in E.
      apply find_some in E. rewrite Forall_forall in Hrows. now apply Hrows. }
    destruct Hrow as (Hlast & Hone & Hlen & Hrep).
    apply Forall_map. rewrite Forall_forall in *. intros r Hr.
    unfold DbManager.update_row.
    destruct (Z.eqb (DbManager.id r) (DbManager.id row)); [|now apply Hrows].
    unfold row_coherent. cbn [DbManager.price_history DbManager.unit_price
                               DbManager.order_count].
    destruct (DbManager.price_differs (DbManager.price_history row) (unit_price item))
      eqn:Hd.
    + split; [apply last_price_snoc|]. split; [lia|]. split.
      * rewrite length_app. simpl. lia.
      * apply no_repeat_snoc; [exact Hrep|]. simpl. intros Hsame.
        apply price_differs_iff in Hsame. congruence.
    + split; [now apply price_differs_iff|]. split; [lia|]. split; [lia|exact Hrep].
  - rewrite (upsert_product_new conn today item E). simpl fst.
    apply Forall_app. split; [exact Hrows|]. constructor; [|constructor].
    unfold row_coherent. simpl. repeat split; lia.
Qed.

Lemma upsert_product_keeps_rows_witness :
  Forall row_coherent
    (fst (DbManager.upsert_product "2024-03-08" sample_catalog
            (sample_item "Broccoli Crowns" 1375%N))).
Proof.
  apply (upsert_product_keeps_rows sample_catalog "2024-03-08"
           (sample_item "Broccoli Crowns" 1375%N)).
  repeat constructor; simpl; lia.
Defined.

Lemma find_app_old {A : Type} (test : A -> bool) (l : list A) (x : A) :
  test x = false -> find test (l ++ [x]) = find test l.
Proof.
  intros Hx. induction l as [|y l IH]; simpl.
  - now rewrite Hx.
  - destruct (test y); [reflexivity|exact IH].
Qed.

Lemma find_id_fresh (conn : DbManager.table) (product_id : Z) :
  ~ In product_id (map DbManager.id conn) ->
  find (fun row => Z.eqb (DbManager.id row) product_id) conn = None.
Proof.
  intros Hfresh. induction conn as [|row conn IH]; [reflexivity|].
  simpl in *. destruct (Z.eqb_spec (DbManager.id row) product_id) as [E|_].
  - exfalso. apply Hfresh. now left.
  - apply IH. intros Hin. apply Hfresh. now right.
Qed.

(** X15. The first call for an item code adds one row to the end of the
    catalog and changes no other row; the row carries the fields of the
    item, an [order_count] of 1 and the day of the call as [first_seen]
    and [last_seen]; [get_product] with the returned id and
    [get_product_by_code] with the item code both find it. *)
Theorem upsert_product_insert (conn : DbManager.table) (today : string) (item : LineItem) :
  DbManager.get_product_by_code conn (item_code item) = None ->
  exists row,
    DbManager.upsert_product today conn item = (conn ++ [row], DbManager.id row) /\
    DbQueries.get_product (conn ++ [row]) (DbManager.id row) = Some row /\
    DbManager.get_product_by_code (conn ++ [row]) (item_code item) = Some row /\
    row =
      {| DbManager.id := DbManager.next_rowid conn;
         DbManager.gfs_item_code := item_code item;
         DbManager.description := description item;
         DbManager.brand := brand item;
         DbManager.pack_size := pack_size item;
         DbManager.category_code := category_code item;
         DbManager.category_name := category_name item;
         DbManager.unit_price := unit_price item;
         DbManager.price_history :=
           [ {| DbManager.point_date := today; DbManager.point_price := unit_price item |} ];
         DbManager.first_seen := today;
         DbManager.last_seen := today;
         DbManager.order_count := 1 |}.
Proof.
  intros Hnone. rewrite (upsert_product_new conn today item Hnone).
  match goal with |- context [(conn ++ [?r], DbManager.next_rowid conn)] => exists r end.
  split; [reflexivity|].
  split; [|split; [|reflexivity]].
  - unfold DbQueries.get_product. apply find_app_none.
    + apply find_id_fresh. apply next_rowid_fresh.
    + simpl. apply Z.eqb_refl.
  - unfold DbManager.get_product_by_code, DbManager.select_by_code in *.
    apply find_app_none; [exact Hnone|]. simpl. apply String.eqb_refl.
Qed.

Lemma upsert_product_insert_witness :
  exists row,
    DbManager.upsert_product "2024-03-08" sample_catalog
      {| item_code := "777777"; quantity_ordered := 1; quantity_shipped := 1;
         unit := "CS"; pack_size := "12x1 QT"; brand := "Gordon";
         description := "Orange Juice"; category_code := "BV";
         category_name := "Beverage"; invoice_value := 0%N; unit_price := 2450%N;
         extended_price := 2450%N; raw_line := "" |} =
      (sample_catalog ++ [row], DbManager.id row) /\
    DbQueries.get_product (sample_catalog ++ [row]) (DbManager.id row) = Some row /\
    DbManager.get_product_by_code (sample_catalog ++ [row]) "777777" = Some row /\
    row =
      {| DbManager.id := DbManager.next_rowid sample_catalog;
         DbManager.gfs_item_code := "777777";
         DbManager.description := "Orange Juice";
         DbManager.brand := "Gordon";
         DbManager.pack_size := "12x1 QT";
         DbManager.category_code := "BV";
         DbManager.category_name := "Beverage";
         DbManager.unit_price := 2450%N;
         DbManager.price_history :=
           [ {| DbManager.point_date := "2024-03-08"; DbManager.point_price := 2450%N |} ];
         DbManager.first_seen := "2024-03-08";
         DbManager.last_seen := "2024-03-08";
         DbManager.order_count := 1 |}.
Proof.
  exact (upsert_product_insert sample_catalog "2024-03-08"
           {| item_code := "777777"; quantity_ordered := 1; quantity_shipped := 1;
              unit := "CS"; pack_size := "12x1 QT"; brand := "Gordon";
              description := "Orange Juice"; category_code := "BV";
              category_name := "Beverage"; invoice_value := 0%N; unit_price := 2450%N;
              extended_price := 2450%N; raw_line := "" |}
           eq_refl).
Defined.

Lemma NoDup_map_injective {A B : Type} (f : A -> B) (l : list A) (a b : A) :
  NoDup (map f l) -> In a l -> In b l -> f a = f b -> a = b.
Proof.
  induction l as [|x l IH]; intros Hnd Ha Hb Hf; [contradiction|].
  simpl in Hnd. inversion Hnd as [|? ? Hx Hl]; subst.
  destruct Ha as [->|Ha]; destruct Hb as [->|Hb]; auto.
  - exfalso. apply Hx. rewrite Hf. now apply in_map.
  - exfalso. apply Hx. rewrite <- Hf. now apply in_map.
Qed.

Lemma upsert_other_codes (conn : DbManager.table) (today : string)
    (item : LineItem) (code : string) :
  NoDup (map DbManager.id conn) ->
  code <> item_code item ->
  DbManager.get_product_by_code (fst (DbManager.upsert_product today conn item)) code =
  DbManager.get_product_by_code conn code.
Proof.
  intros Hids Hcode.
  destruct (DbManager.get_product_by_code conn (item_code item)) as [row|] eqn:E.
  - destruct (upsert_product_existing conn today item row E) as (-> & _). simpl fst.
    unfold DbManager.get_product_by_code, DbManager.select_by_code in *.
    rewrite find_map_same by (intros x; now rewrite update_row_code).
    destruct (find (fun r => String.eqb (DbManager.gfs_item_code r) code) conn)
      as [other|] eqn:Eo; [|reflexivity].
    simpl. f_equal. unfold DbManager.update_row.
    destruct (Z.eqb_spec (DbManager.id other) (DbManager.id row)) as [Eid|_];
      [|reflexivity].
    exfalso. apply find_some in E. apply find_some in Eo.
    destruct E as (Hrow & Hrc). destruct Eo as (Hother & Hoc).
    apply String.eqb_eq in Hrc, Hoc.
    assert (other = row) by (apply (NoDup_map_injective DbManager.id conn); auto).
    subst other. congruence.
  - rewrite (upsert_product_new conn today item E). simpl fst.
    unfold DbManager.get_product_by_code, DbManager.select_by_code.
    apply find_app_old. simpl. apply String.eqb_neq. congruence.
Qed.

(** X16. In a catalog where no two rows share an id, a call for one item
    code leaves the record of every other item code as it is. *)
Theorem upsert_product_other_codes (conn : DbManager.table) (today : string)
    (item : LineItem) (code : string) :
  NoDup (map DbManager.id conn) ->
  code <> item_code item ->
  DbManager.get_product_by_code (fst (DbManager.upsert_product today conn item)) code =
  DbManager.get_product_by_code conn code.
Proof. exact (upsert_other_codes conn today item code). Qed.

Lemma upsert_product_other_codes_witness :
  DbManager.get_product_by_code
    (fst (DbManager.upsert_product "2024-03-08" sample_catalog
            (sample_item "Broccoli Crowns" 1375%N))) "654321" =
  DbManager.get_product_by_code sample_catalog "654321".
Proof.
  apply (upsert_product_other_codes sample_catalog "2024-03-08"
           (sample_item "Broccoli Crowns" 1375%N) "654321").
  - simpl. repeat constructor; simpl; intuition discriminate.
  - discriminate.
Defined.

Lemma upsert_product_counts (conn : DbManager.table) (today : string) (item : LineItem) :
  order_count_of (fst (DbManager.upsert_product today conn item)) (item_code item) =
  (order_count_of conn (item_code item) + 1)%Z.
Proof.
  unfold order_count_of.
  destruct (DbManager.get_product_by_code conn (item_code item)) as [row|] eqn:E.
  - destruct (upsert_product_existing conn today item row E) as (_ & -> & ->). reflexivity.
  - rewrite (upsert_product_new conn today item E). simpl fst.
    unfold DbManager.get_product_by_code, DbManager.select_by_code in *.
    rewrite (find_app_none _ conn _ E); [reflexivity|].
    simpl. apply String.eqb_refl.
Qed.

(** X17. [order_count] counts the calls: after any sequence of calls on
    a catalog where no two rows share an id, the [order_count] of an
    item code is its value before plus the number of calls for that
    code (0 for a code that the catalog does not hold). *)
Theorem order_count_counts_calls (calls : list (string * LineItem)) :
  forall (conn : DbManager.table) (code : string),
  NoDup (map DbManager.id conn) ->
  NoDup (map DbManager.gfs_item_code conn) ->
  order_count_of (upsert_all conn calls) code =
  (order_count_of conn code + Z.of_nat (length (calls_for code calls)))%Z.
Proof.
  unfold upsert_all, calls_for.
  induction calls as [|(today, item) calls IH]; intros conn code Hids Hcodes.
  - simpl. lia.
  - cbn [fold_left fst snd filter].
    destruct (upsert_keys conn today item Hids Hcodes) as (Hids' & Hcodes').
    rewrite (IH _ code Hids' Hcodes').
    destruct (String.eqb_spec (item_code item) code) as [<-|Hne].
    + rewrite upsert_product_counts. cbn [length]. lia.
    + unfold order_count_of at 1.
      rewrite upsert_other_codes by (auto; congruence).
      fold (order_count_of conn code). reflexivity.
Qed.

Lemma order_count_counts_calls_witness :
  order_count_of
    (upsert_all sample_catalog
       [("2024-03-08", sample_item "Broccoli Crowns" 1375%N);
        ("2024-03-15", sample_item "Fresh Broccoli" 1375%N)]) "123456" =
  (order_count_of sample_catalog "123456" +
   Z.of_nat (length (calls_for "123456"
       [("2024-03-08", sample_item "Broccoli Crowns" 1375%N);
        ("2024-03-15", sample_item "Fresh Broccoli" 1375%N)])))%Z.
Proof.
  apply (order_count_counts_calls
           [("2024-03-08", sample_item "Broccoli Crowns" 1375%N);
            ("2024-03-15", sample_item "Fresh Broccoli" 1375%N)] sample_catalog "123456").
  - simpl. repeat constructor; simpl; intuition discriminate.
  - simpl. repeat constructor; simpl; intuition discriminate.
Defined.

(** ** Programs by category *)

Section ProgramsProperties.

Variable program : Type.
Variable key : Type.
Variable key_eqb : key -> key -> bool.
Variable category : program -> key.

Hypothesis key_eqb_eq : forall a b, key_eqb a b = true <-> a = b.

Let lookup := DbQueries.dict_lookup program key key_eqb.
Let append := DbQueries.dict_append program key key_eqb.
Let step := DbQueries.group_step program key key_eqb category.

Lemma key_eqb_refl (a : key) : key_eqb a a = true.
Proof. now apply key_eqb_eq. Qed.

Lemma key_eqb_neq (a b : key) : a <> b -> key_eqb a b = false.
Proof.
  intros H. destruct (key_eqb a b) eqn:E; [|reflexivity].
  apply key_eqb_eq in E. contradiction.
Qed.

Lemma existsb_lookup (groups : list (key * list program)) (cat : key) :
  existsb (fun kv => key_eqb (fst kv) cat) groups = true <->
  lookup groups cat <> None.
Proof.
  unfold lookup. induction groups as [|(k, ps) groups IH]; simpl.
  - split; [discriminate|congruence].
  - destruct (key_eqb k cat); simpl; [split; [discriminate|reflexivity]|exact IH].
Qed.

Lemma lookup_keys (groups : list (key * list program)) (cat : key) :
  lookup groups cat = None -> ~ In cat (map fst groups).
Proof.
  unfold lookup. induction groups as [|(k, ps) groups IH]; simpl; [auto|].
  destruct (key_eqb k cat) eqn:E; [discriminate|].
  intros Hnone [->|Hin]; [now rewrite key_eqb_refl in E|now apply IH].
Qed.

Lemma append_keys (groups : list (key * list program)) (cat : key) (p : program) :
  map fst (append groups cat p) = map fst groups.
Proof.
  unfold append. induction groups as [|(k, ps) groups IH]; simpl; [reflexivity|].
  destruct (key_eqb k cat); simpl; [reflexivity|now rewrite IH].
Qed.

Lemma append_lookup (groups : list (key * list program)) (cat other : key) (p : program) :
  lookup (append groups cat p) other =
  if key_eqb cat other
  then option_map (fun ps => ps ++ [p]) (lookup groups other)
  else lookup groups other.
Proof.
  unfold lookup, append. induction groups as [|(k, ps) groups IH]; simpl.
  - now destruct (key_eqb cat other).
  - destruct (key_eqb k cat) eqn:Ekc; simpl.
    + apply key_eqb_eq in Ekc. subst k.
      destruct (key_eqb cat other); reflexivity.
    + destruct (key_eqb k other) eqn:Eko.
      * apply key_eqb_eq in Eko. subst k.
        rewrite (key_eqb_neq cat other); [reflexivity|].
        intros ->. now rewrite key_eqb_refl in Ekc.
      * exact IH.
Qed.

Lemma lookup_snoc (groups : list (key * list program)) (cat other : key)
    (ps : list program) :
  lookup (groups ++ [(cat, ps)]) other =
  match lookup groups other with
  | Some l => Some l
  | None => if key_eqb cat other then Some ps else None
  end.
Proof.
  unfold lookup. induction groups as [|(k, l) groups IH]; simpl; [reflexivity|].
  destruct (key_eqb k other); [reflexivity|exact IH].
Qed.

Lemma group_step_spec (done : list program) (groups : list (key * list program))
    (p : program) :
  NoDup (map fst groups) ->
  (forall cat, lookup groups cat =
               nonempty (filter (fun q => key_eqb (category q) cat) done)) ->
  NoDup (map fst (step groups p)) /\
  forall cat, lookup (step groups p) cat =
              nonempty (filter (fun q => key_eqb (category q) cat) (done ++ [p])).
Proof.
  intros Hkeys Hgroups. unfold step, DbQueries.group_step.
  fold append. destruct (existsb _ groups) eqn:Eex.
  - split; [now rewrite append_keys|].
    intros cat. rewrite append_lookup, filter_app, Hgroups. simpl.
    destruct (key_eqb (category p) cat) eqn:Ec.
    + apply key_eqb_eq in Ec. subst cat.
      apply existsb_lookup in Eex. rewrite Hgroups in Eex.
      destruct (filter _ done); [contradiction|reflexivity].
    + now rewrite app_nil_r.
  - assert (Hnone : lookup groups (category p) = None).
    { destruct (lookup groups (category p)) eqn:El; [|reflexivity].
      assert (Hex : existsb (fun kv => key_eqb (fst kv) (category p)) groups = true)
        by (apply existsb_lookup; congruence).
      congruence. }
    split.
    + rewrite append_keys, map_app. simpl.
      apply NoDup_snoc; [exact Hkeys|now apply lookup_keys].
    + intros cat. rewrite append_lookup, lookup_snoc, filter_app, Hgroups. simpl.
      destruct (key_eqb (category p) cat) eqn:Ec.
      * apply key_eqb_eq in Ec. subst cat. rewrite Hgroups in Hnone.
        destruct (filter _ done); [reflexivity|discriminate].
      * rewrite app_nil_r. now destruct (nonempty _).
Qed.

(** X18. [get_programs_by_category] groups the programs: no category
    appears twice, the list of a category is exactly the programs of
    that category in the order of the input, and a category without a
    program has no entry. *)
Theorem programs_by_category (programs : list program) :
  let groups := DbQueries.get_programs_by_category program key key_eqb category programs in
  NoDup (map fst groups) /\
  forall cat,
    DbQueries.dict_lookup program key key_eqb groups cat =
    nonempty (filter (fun p => key_eqb (category p) cat) programs).
Proof.
  unfold DbQueries.get_programs_by_category. fold step. fold lookup.
  induction programs as [|p programs IH] using rev_ind.
  - simpl. split; [constructor|reflexivity].
  - rewrite fold_left_app. simpl. destruct IH as (Hkeys & Hgroups).
    now apply group_step_spec.
Qed.

End ProgramsProperties.

Lemma programs_by_category_witness :
  let groups :=
    DbQueries.get_programs_by_category (string * string) string String.eqb fst
      [("Before School", "BSC"); ("Summer", "SUM"); ("Before School", "KDG")] in
  NoDup (map fst groups) /\
  forall cat,
    DbQueries.dict_lookup (string * string) string String.eqb groups cat =
    nonempty (filter (fun p => String.eqb (fst p) cat)
                [("Before School", "BSC"); ("Summer", "SUM"); ("Before School", "KDG")]).
Proof.
  apply (programs_by_category (string * string) string String.eqb fst String.eqb_eq).
Defined.

(** ** The suggested delivery day *)

(** X19. The delivery day that [new_order] suggests is the first Tuesday
    strictly after today: between 1 and 7 days ahead, 7 on a Tuesday. *)
Theorem next_tuesday (weekday : Z) :
  (0 <= weekday <= 6)%Z ->
  let d := Routes.days_until_tuesday weekday in
  (1 <= d <= 7)%Z /\
  ((weekday + d) mod 7 = 1)%Z /\
  forall d', (1 <= d' < d)%Z -> ((weekday + d') mod 7 <> 1)%Z.
Proof.
  intros Hw d.
  assert (Hcases : (weekday = 0 \/ weekday = 1 \/ weekday = 2 \/ weekday = 3 \/
                    weekday = 4 \/ weekday = 5 \/ weekday = 6)%Z) by lia.
  destruct Hcases as [->|[->|[->|[->|[->|[->| ->]]]]]];
    vm_compute in d; subst d;
    (split; [lia|]); (split; [reflexivity|]);
    intros d' Hd';
    assert (Hd : (d' = 1 \/ d' = 2 \/ d' = 3 \/ d' = 4 \/ d' = 5 \/ d' = 6)%Z) by lia;
    destruct Hd as [->|[->|[->|[->|[->| ->]]]]]; vm_compute; try discriminate; lia.
Qed.

Lemma next_tuesday_witness :
  let d := Routes.days_until_tuesday 1 in
  (1 <= d <= 7)%Z /\
  ((1 + d) mod 7 = 1)%Z /\
  forall d', (1 <= d' < d)%Z -> ((1 + d') mod 7 <> 1)%Z.
Proof. apply (next_tuesday 1). lia. Defined.

(** ** Batch loop: the report and the files that fail *)

Section BatchReport.

Context {C : Collaborators}.

(** X21. The files whose processing raises are as if they were not in
    the batch: the batch of the other files leaves the same catalog and
    has the same entries for them. *)
Theorem failed_files_skipped (files : list pdf_path) :
  forall db,
  process_files db (kept_files db files) =
  (fst (process_files db files),
   filter (fun entry => negb (entry_failed entry)) (snd (process_files db files))).
Proof.
  induction files as [|pdf files IH]; intros db; [reflexivity|].
  cbn [kept_files process_files].
  destruct (file_raises db pdf) eqn:Hraise.
  - destruct (process_file_raises db pdf Hraise) as (body & e & Hfile & _).
    rewrite Hfile, IH.
    destruct (process_files db files) as (db2, entries). cbn [fst snd filter].
    assert (Hf : entry_failed (Processing (path_name pdf) :: body ++ [FileError e]) = true)
      by apply (entry_failed_last (Processing (path_name pdf) :: body) e).
    now rewrite Hf.
  - destruct (process_file_succeeds db pdf Hraise) as (_ & _ & _ & _ & _ & _ & Hok).
    cbn [process_files].
    destruct (process_file db pdf) as (db1, entry). cbn [fst snd] in *.
    rewrite IH. destruct (process_files db1 files) as (db2, entries).
    cbn [fst snd filter]. now rewrite Hok.
Qed.

End BatchReport.

(** ** The text of the location *)

Lemma upper_not_space (c : ascii) : Py.isupper c = true -> Py.isspace c = false.
Proof.
  destruct c as [[] [] [] [] [] [] [] []]; vm_compute; congruence.
Qed.

Lemma match_suffix_in (alts : list string) (s w : string) :
  match_suffix alts s = Some w -> In w alts.
Proof.
  induction alts as [|a alts IH]; simpl; [discriminate|].
  destruct (String.prefix a s); [intros H; injection H as ->; now left|].
  intros H. right. now apply IH.
Qed.

Lemma backtrack_shape (rest : string) (t : nat) (m : string) :
  backtrack rest t = Some m ->
  exists body w, m = (body ++ w)%string /\ In w LOCATION_SUFFIXES.
Proof.
  induction t as [|t IH]; [discriminate|].
  cbn [backtrack].
  destruct (match_suffix LOCATION_SUFFIXES
              (String.substring (S t) (String.length rest - S t) rest)) as [w|] eqn:Ew.
  - intros H. injection H as <-. apply match_suffix_in in Ew. eauto.
  - exact IH.
Qed.

Lemma search_location_unfold (s : string) :
  search_location s =
  match match_location_at s with
  | Some m => Some m
  | None =>
      match s with
      | EmptyString => None
      | String _ s' => search_location s'
      end
  end.
Proof. destruct s; reflexivity. Qed.

Lemma search_location_shape (s m : string) :
  search_location s = Some m ->
  exists c body w,
    m = String c (body ++ w) /\ Py.isupper c = true /\ In w LOCATION_SUFFIXES.
Proof.
  induction s as [|c s IH]; rewrite search_location_unfold.
  - simpl. discriminate.
  - unfold match_location_at. destruct (Py.isupper c) eqn:Hc; [|exact IH].
    destruct (backtrack s (class_run s)) as [m'|] eqn:Eb; [|exact IH].
    intros H. injection H as <-.
    destruct (backtrack_shape _ _ _ Eb) as (body & w & -> & Hw). eauto 6.
Qed.

Lemma rstrip_app_word (a w : string) :
  Py.rstrip w = w -> w <> EmptyString -> Py.rstrip (a ++ w) = (a ++ w)%string.
Proof.
  intros Hw Hne. induction a as [|c a IH]; [exact Hw|].
  simpl. rewrite IH. destruct (a ++ w)%string eqn:E; [|reflexivity].
  destruct a; simpl in E; [contradiction|discriminate].
Qed.

(** X22. The text stored as location begins with an uppercase letter and
    ends with SCHOOL, ELEMENTARY or CENTER, and [strip()] never changes
    it. *)
Theorem location_text (line m : string) :
  search_location line = Some m ->
  Py.strip m = m /\
  exists c body w,
    m = String c (body ++ w) /\ Py.isupper c = true /\ In w LOCATION_SUFFIXES.
Proof.
  intros H. destruct (search_location_shape _ _ H) as (c & body & w & -> & Hc & Hw).
  split; [|eauto 6].
  unfold Py.strip. simpl Py.lstrip. rewrite (upper_not_space c Hc).
  change (String c (body ++ w)) with (String c body ++ w)%string.
  apply rstrip_app_word.
  - simpl in Hw. destruct Hw as [<-|[<-|[<-|[]]]]; reflexivity.
  - simpl in Hw. destruct Hw as [<-|[<-|[<-|[]]]]; discriminate.
Qed.

Lemma location_text_witness :
  Py.strip "KINAWA ELEMENTARY SCHOOL" = "KINAWA ELEMENTARY SCHOOL" /\
  exists c body w,
    "KINAWA ELEMENTARY SCHOOL" = String c (body ++ w) /\
    Py.isupper c = true /\ In w LOCATION_SUFFIXES.
Proof.
  apply (location_text "Ship To: KINAWA ELEMENTARY SCHOOL ROOM").
  vm_compute. reflexivity.
Defined.
